(** * Bicep deploy action: scope dispatch, error translation, output projection

    A shallow embedding of [src/handler.ts] (and of the client factory it
    calls) together with the properties stated about it.

    - JavaScript strings are [string]; [undefined] is [None]. The texts the
      handler itself writes and compares are ASCII. The output keys and the
      masked names are the user's and may hold any letter: they are
      lower-cased by the runtime.
    - The side effects of the handler (remote calls, log lines, [setFailed],
      [setOutput], [setSecret]) are recorded in an event trace; thrown values
      are the [Throw] outcome of an action.
    - The resource-management service, [JSON.parse], [JSON.stringify], the
      what-if formatter and the lower-casing of the runtime are external
      collaborators: they are variables of the section that holds the
      handler. *)

From Stdlib Require Import String Ascii List Bool Arith Lia.
From Stdlib Require Import Decimal DecimalString.
From ExtLib Require Import Structures.Monad Structures.MonadExc.
Import ListNotations.
Import MonadNotation.
Local Open Scope list_scope.
Local Open Scope monad_scope.
Local Open Scope string_scope.

Set Implicit Arguments.

(* ===================================================================== *)
(** ** JavaScript values used by the handler *)
(* ===================================================================== *)

Module Js.

(** Truthiness of an optional string ([!x] is its negation): [undefined]
    and the empty string are falsy. *)
Definition truthy (x : option string) : bool :=
  match x with
  | Some s => negb (s =? "")
  | None => false
  end.

(** [x ?? d] *)
Definition nullish (x : option string) (d : string) : string :=
  match x with
  | Some s => s
  | None => d
  end.

(** Interpolation of a possibly undefined string in a template literal,
    and the string conversion [RegExp.prototype.exec] applies to its
    argument. *)
Definition toString (x : option string) : string :=
  match x with
  | Some s => s
  | None => "undefined"
  end.

Definition isUpper (c : ascii) : bool :=
  ((65 <=? nat_of_ascii c) && (nat_of_ascii c <=? 90))%nat.

Definition isLower (c : ascii) : bool :=
  ((97 <=? nat_of_ascii c) && (nat_of_ascii c <=? 122))%nat.

Definition isDigit (c : ascii) : bool :=
  ((48 <=? nat_of_ascii c) && (nat_of_ascii c <=? 57))%nat.

Definition lowerChar (c : ascii) : ascii :=
  if isUpper c then ascii_of_nat (nat_of_ascii c + 32) else c.

(** [s.toLowerCase()] on ASCII text, where the method folds the letters A
    to Z and leaves every other character: the case of the scope token,
    captured by [[a-zA-Z]+], and of the header names. *)
Fixpoint toLowerCase (s : string) : string :=
  match s with
  | EmptyString => EmptyString
  | String c s' => String (lowerChar c) (toLowerCase s')
  end.

(** JSON documents exchanged with the service. *)
#[warnings="-register-all"]
Inductive Json : Type :=
| JNull
| JBool (b : bool)
| JNumber (literal : string)     (* the number, in its decimal writing *)
| JString (s : string)
| JArray (items : list Json)
| JObject (members : list (string * Json)).

(** [ErrorResponse] of the resource-management API. *)
#[warnings="-register-all"]
Inductive ErrorResponse : Type :=
| mkErrorResponse (code message target : option string)
                  (details : list ErrorResponse).

Definition member (key : string) (x : option string)
  : list (string * Json) :=
  match x with
  | Some s => [(key, JString s)]
  | None => []
  end.

(** The document [JSON.stringify] sees for an error response: the members
    that are defined, in declaration order. *)
Fixpoint ErrorResponse_toJson (e : ErrorResponse) : Json :=
  match e with
  | mkErrorResponse code message target details =>
      JObject (member "code" code ++ member "message" message
               ++ member "target" target
               ++ match details with
                  | [] => []
                  | _ => [("details", JArray (map ErrorResponse_toJson details))]
                  end)%list
  end.

(** [CloudError]: the deserialized body of a failed request. *)
Record CloudError : Type := mkCloudError {
  error : option ErrorResponse;
}.

(** [PipelineResponse], as far as the handler reads it. [headers.get] is
    insensitive to the case of the header name. *)
Record PipelineResponse : Type := mkPipelineResponse {
  headers : list (string * string);
  bodyAsText : option string;
}.

Fixpoint headers_get (h : list (string * string)) (name : string)
  : option string :=
  match h with
  | [] => None
  | (k, v) :: h' =>
      if toLowerCase k =? toLowerCase name then Some v
      else headers_get h' name
  end.

(** [RestError] of the HTTP pipeline: [response] and [details] are both
    optional. *)
Record RestError : Type := mkRestError {
  message : string;
  response : option PipelineResponse;
  details : option CloudError;
}.

(** Thrown values. *)
Inductive Exn : Type :=
| Error (msg : string)          (* new Error(msg) *)
| TypeError (msg : string)
| SyntaxError (msg : string)    (* JSON.parse on malformed text *)
| Rest (e : RestError)          (* instanceof RestError *)
| Thrown (what : string).       (* any other thrown value *)

End Js.
Export Js.

(* ===================================================================== *)
(** ** Regular expressions (the fragment the handler uses) *)
(* ===================================================================== *)

Module RegExp.

Inductive regex : Type :=
| Lit (s : string)               (* a literal run of characters *)
| Plus (cls : ascii -> bool)     (* [cls]+, greedy *)
| Opt (r : regex)                (* r?, greedy *)
| Group (r : regex)              (* ( r ), capturing *)
| Seq (r1 r2 : regex).

Fixpoint strip_prefix (p s : string) : option string :=
  match p, s with
  | EmptyString, _ => Some s
  | String c p', String d s' =>
      if Ascii.eqb c d then strip_prefix p' s' else None
  | String _ _, EmptyString => None
  end.

(** The remainders after one or more characters of the class, the longest
    run first: the order in which a backtracking matcher tries them. *)
Fixpoint plus_rests (cls : ascii -> bool) (s : string) : list string :=
  match s with
  | EmptyString => []
  | String c s' => if cls c then (plus_rests cls s' ++ [s'])%list else []
  end.

(** The text between the start [s] of a match and its remainder [rest]. *)
Definition consumed (s rest : string) : string :=
  substring 0 (String.length s - String.length rest) s.

Fixpoint groups (r : regex) : nat :=
  match r with
  | Lit _ | Plus _ => 0
  | Opt r' => groups r'
  | Group r' => S (groups r')
  | Seq r1 r2 => groups r1 + groups r2
  end.

(** All the ways [r] matches a prefix of [s], in backtracking priority
    order; each with its captures and the remainder of the input. *)
Fixpoint matches (r : regex) (s : string)
  : list (list (option string) * string) :=
  match r with
  | Lit l =>
      match strip_prefix l s with
      | Some rest => [([], rest)]
      | None => []
      end
  | Plus cls => map (fun rest => ([], rest)) (plus_rests cls s)
  | Opt r' => (matches r' s ++ [(repeat None (groups r'), s)])%list
  | Group r' =>
      map (fun m => (Some (consumed s (snd m)) :: fst m, snd m))
          (matches r' s)
  | Seq r1 r2 =>
      flat_map
        (fun m1 => map (fun m2 => ((fst m1 ++ fst m2)%list, snd m2))
                       (matches r2 (snd m1)))
        (matches r1 s)
  end.

(** [r.exec(s)] for a regex without flags: the leftmost match, and at that
    position the first one in priority order. The result array holds the
    matched text and then the captures. *)
Fixpoint exec (r : regex) (s : string) : option (list (option string)) :=
  match matches r s with
  | m :: _ => Some (Some (consumed s (snd m)) :: fst m)
  | [] =>
      match s with
      | EmptyString => None
      | String _ s' => exec r s'
      end
  end.

End RegExp.
Export RegExp.

(* ===================================================================== *)
(** ** Configuration and parsed files *)
(* ===================================================================== *)

Inductive ScopeType : Type :=
| tenant | managementGroup | subscription | resourceGroup.

Definition ScopeType_eqb (a b : ScopeType) : bool :=
  match a, b with
  | tenant, tenant | managementGroup, managementGroup
  | subscription, subscription | resourceGroup, resourceGroup => true
  | _, _ => false
  end.

(** The string each scope type is at run time. *)
Definition ScopeType_name (s : ScopeType) : string :=
  match s with
  | tenant => "tenant"
  | managementGroup => "managementGroup"
  | subscription => "subscription"
  | resourceGroup => "resourceGroup"
  end.

(** Modelled from the spec: the scope union of [config.ts], which is not
    among the sources. Four variants, each with the fields that address the
    remote API at that scope; the tenant id is optional, as the client
    factory takes it. *)
Inductive Scope : Type :=
| TenantScope (tenantId : option string)
| ManagementGroupScope (tenantId : option string) (managementGroup : string)
| SubscriptionScope (tenantId : option string) (subscriptionId : string)
| ResourceGroupScope (tenantId : option string) (subscriptionId : string)
                     (resourceGroup : string).

Definition scope_type (s : Scope) : ScopeType :=
  match s with
  | TenantScope _ => tenant
  | ManagementGroupScope _ _ => managementGroup
  | SubscriptionScope _ _ => subscription
  | ResourceGroupScope _ _ _ => resourceGroup
  end.

Definition scope_tenantId (s : Scope) : option string :=
  match s with
  | TenantScope t | ManagementGroupScope t _ | SubscriptionScope t _
  | ResourceGroupScope t _ _ => t
  end.

(** ["subscriptionId" in scope ? scope.subscriptionId : undefined] *)
Definition scope_subscriptionId (s : Scope) : option string :=
  match s with
  | SubscriptionScope _ sub | ResourceGroupScope _ sub _ => Some sub
  | TenantScope _ | ManagementGroupScope _ _ => None
  end.

Definition Tags : Type := list (string * string).

Record ActionOnUnmanage : Type := mkActionOnUnmanage {
  resources : string;
  resourceGroups : option string;
  managementGroups : option string;
}.

Record DenySettings : Type := mkDenySettings {
  mode : string;
  excludedActions : list string;
  excludedPrincipals : list string;
  applyToChildScopes : option bool;
}.

Inductive DeploymentOperation : Type := dCreate | dValidate | dWhatIf.
Inductive StackOperation : Type := sCreate | sValidate | sDelete.

(** Modelled from the spec: the configuration types of [config.ts], which
    is not among the sources. These are the fields shared by both kinds of
    configuration; the stack configuration adds the fields [getStack] and
    [getStackDeletionOptions] read. The scope of a stack is written with
    the same union as the scope of a deployment. *)
Record CommonConfig : Type := mkCommonConfig {
  name : option string;
  location : option string;
  tags : option Tags;
  maskedOutputs : option (list string);
  scope : Scope;
}.

Record DeploymentsConfig : Type := mkDeploymentsConfig {
  d_common : CommonConfig;
  d_operation : DeploymentOperation;
}.

Record DeploymentStackConfig : Type := mkDeploymentStackConfig {
  s_common : CommonConfig;
  s_operation : StackOperation;
  description : option string;
  actionOnUnManage : ActionOnUnmanage;
  denySettings : DenySettings;
  bypassStackOutOfSyncError : option bool;
}.

(** [ActionConfig], discriminated by [type]. *)
Inductive ActionConfig : Type :=
| deployment (c : DeploymentsConfig)
| deploymentStack (c : DeploymentStackConfig).

Definition common (config : ActionConfig) : CommonConfig :=
  match config with
  | deployment c => d_common c
  | deploymentStack c => s_common c
  end.

(** Modelled from the spec: [ParsedFiles] of [helpers/file.ts], which is not
    among the sources. The template document is given as far as the handler
    looks into it; the other members travel with it untouched. *)
Record Generator : Type := mkGenerator {
  g_name : option string;
  g_version : option string;
}.

Record Metadata : Type := mkMetadata {
  _generator : option Generator;
}.

Record Template : Type := mkTemplate {
  schema : option string;         (* template["$schema"] *)
  metadata : option Metadata;
  members : list (string * string);
}.

Record ParametersContents : Type := mkParametersContents {
  parameters : option (list (string * string));
}.

Record ParsedFiles : Type := mkParsedFiles {
  templateContents : option Template;
  templateSpecId : option string;
  parametersContents : ParametersContents;
}.

(* ===================================================================== *)
(** ** Scope validation *)
(* ===================================================================== *)

Inductive Outcome (A : Type) : Type :=
| Return (a : A)
| Throw (e : Exn).
Arguments Return {A} a.
Arguments Throw {A} e.

Definition isVersionChar (c : ascii) : bool :=
  isDigit c || isLower c || isUpper c || Ascii.eqb c "-".

Definition isLetter (c : ascii) : bool := isLower c || isUpper c.

(** [/https:\/\/schema\.management\.azure\.com\/schemas\/[0-9a-zA-Z-]+\/([a-zA-Z]+)Template\.json#?/] *)
Definition schemaPrefix : string :=
  "https://schema.management.azure.com/schemas/".

Definition schemaRegex : regex :=
  Seq (Lit schemaPrefix)
 (Seq (Plus isVersionChar)
 (Seq (Lit "/")
 (Seq (Group (Plus isLetter))
 (Seq (Lit "Template.json")
      (Opt (Lit "#")))))).

Definition emptyTemplate : Template := mkTemplate None None [].

(** [template.metadata?._generator?.name] *)
Definition generatorName (template : Template) : option string :=
  match metadata template with
  | Some m =>
      match _generator m with
      | Some g => g_name g
      | None => None
      end
  | None => None
  end.

(** [result ? result[1].toLowerCase() : null] *)
Definition scopeMatch (result : option (list (option string)))
  : Outcome (option string) :=
  match result with
  | Some r =>
      match nth 1 r None with
      | Some tok => Return (Some (toLowerCase tok))
      | None => Throw (TypeError "Cannot read properties of undefined")
      end
  | None => Return None
  end.

Definition scopeOfToken (tok : option string) : Outcome (option ScopeType) :=
  match tok with
  | Some t =>
      if t =? "tenantdeployment" then Return (Some tenant)
      else if t =? "managementgroupdeployment" then Return (Some managementGroup)
      else if t =? "subscriptiondeployment" then Return (Some subscription)
      else if t =? "deployment" then Return (Some resourceGroup)
      else Throw (Error "Failed to determine deployment scope from Bicep file.")
  | None => Throw (Error "Failed to determine deployment scope from Bicep file.")
  end.

(** [files.templateContents ?? {}] *)
Definition templateOrEmpty (files : ParsedFiles) : Template :=
  match templateContents files with
  | Some t => t
  | None => emptyTemplate
  end.

Definition getScope (files : ParsedFiles) : Outcome (option ScopeType) :=
  let template := templateOrEmpty files in
  let bicepGenerated := generatorName template in
  let schema := schema template in
  if negb (truthy bicepGenerated) then
    (* loose validation for templates that were not generated by Bicep *)
    Return None
  else
    let result := exec schemaRegex (toString schema) in
    match scopeMatch result with
    | Return tok => scopeOfToken tok
    | Throw e => Throw e
    end.

Definition scopeMismatchMessage (inferred configured : ScopeType) : string :=
  "The target scope " ++ ScopeType_name inferred
    ++ " does not match the deployment scope " ++ ScopeType_name configured
    ++ ".".

Definition validateFileScope (config : ActionConfig) (files : ParsedFiles)
  : Outcome unit :=
  match getScope files with
  | Throw e => Throw e
  | Return None => Return tt
  | Return (Some scope') =>
      if negb (ScopeType_eqb scope' (scope_type (scope (common config)))) then
        Throw (Error (scopeMismatchMessage scope'
                        (scope_type (scope (common config)))))
      else Return tt
  end.

(* ===================================================================== *)
(** ** Effects: the trace of an action *)
(* ===================================================================== *)

(** The clients of [helpers/azure.ts], by what they are built from. The
    debug logging policy a client may carry writes debug lines only and is
    left out. *)
Record Client : Type := mkClient {
  credentialTenantId : option string;
  clientSubscriptionId : string;
  userAgent : string;
  apiVersion : option string;
}.

Definition userAgentPrefix : string := "gh-azure-bicep-deploy".
Definition dummySubscriptionId : string :=
  "00000000-0000-0000-0000-000000000000".

Definition createDeploymentClient (subscriptionId tenantId : option string)
  : Client :=
  mkClient tenantId
           (* a dummy subscription id for operations above subscription scope *)
           (nullish subscriptionId dummySubscriptionId)
           userAgentPrefix
           (Some "2024-03-01").

Definition createStacksClient (subscriptionId tenantId : option string)
  : Client :=
  mkClient tenantId (nullish subscriptionId dummySubscriptionId)
           userAgentPrefix None.

Record TemplateLink : Type := mkTemplateLink {
  id : string;
}.

Module Deployment.
Record ExpressionEvaluationOptions : Type := mkOptions {
  scope : string;
}.
Record Properties : Type := mkProperties {
  mode : string;
  template : option Template;
  templateLink : option TemplateLink;
  parameters : option (list (string * string));
  expressionEvaluationOptions : ExpressionEvaluationOptions;
}.
Record t : Type := mk {
  location : option string;
  properties : Properties;
  tags : option Tags;
}.
(** [{ ...deployment, location: l }] *)
Definition withLocation (d : t) (l : string) : t :=
  mk (Some l) (properties d) (tags d).
End Deployment.

Module DeploymentStack.
Record Properties : Type := mkProperties {
  template : option Template;
  templateLink : option TemplateLink;
  parameters : option (list (string * string));
  description : option string;
  actionOnUnmanage : ActionOnUnmanage;
  denySettings : DenySettings;
  bypassStackOutOfSyncError : option bool;
}.
Record t : Type := mk {
  location : option string;
  properties : Properties;
  tags : option Tags;
}.
(** [{ ...stack, location: l }] *)
Definition withLocation (s : t) (l : string) : t :=
  mk (Some l) (properties s) (tags s).
End DeploymentStack.

Record DeletionOptions : Type := mkDeletionOptions {
  unmanageActionResources : string;
  unmanageActionResourceGroups : option string;
  unmanageActionManagementGroups : option string;
  deleteBypassStackOutOfSyncError : option bool;
}.

(** What a create operation returns: [properties?.outputs] maps an output
    name to [{ value }]; the entries are kept in key order. *)
Record OutputValue : Type := mkOutputValue {
  value : string;
}.

Definition Outputs : Type := list (string * OutputValue).

Record ResultProperties : Type := mkResultProperties {
  outputs : option Outputs;
}.

Record Resource : Type := mkResource {
  properties : option ResultProperties;
}.

Definition WhatIfOperationResult : Type := Json.

(** Where a remote operation is addressed. With the operation it names the
    client method: for instance [BeginCreateOrUpdate] at [AtResourceGroup]
    is [beginCreateOrUpdateAndWait], at [AtSubscription] it is
    [beginCreateOrUpdateAtSubscriptionScopeAndWait], and
    [StacksBeginDelete] at [AtManagementGroup] is
    [beginDeleteAtManagementGroupAndWait]. *)
Inductive Target : Type :=
| AtResourceGroup (resourceGroup : string)
| AtSubscription
| AtManagementGroup (managementGroup : string)
| AtTenant.

Inductive RemoteCall : Type :=
| BeginCreateOrUpdate (client : Client) (at_ : Target) (name : string)
                      (d : Deployment.t)
| BeginValidate (client : Client) (at_ : Target) (name : string)
                (d : Deployment.t)
| BeginWhatIf (client : Client) (at_ : Target) (name : string)
              (d : Deployment.t)
| StacksBeginCreateOrUpdate (client : Client) (at_ : Target) (name : string)
                            (s : DeploymentStack.t)
| StacksBeginValidateStack (client : Client) (at_ : Target) (name : string)
                           (s : DeploymentStack.t)
| StacksBeginDelete (client : Client) (at_ : Target) (name : string)
                    (o : DeletionOptions).

Inductive Event : Type :=
| Remote (call : RemoteCall)
| LogError (msg : string)
| LogInfoRaw (msg : string)
| SetFailed (msg : string)
| SetOutput (key value : string)
| SetSecret (value : string).

(** The resource-management service: each operation waits for the terminal
    state of the long-running operation and then returns or throws. *)
Record Service : Type := mkService {
  deployments_createOrUpdate :
    Client -> Target -> string -> Deployment.t -> Outcome Resource;
  deployments_validate :
    Client -> Target -> string -> Deployment.t -> Outcome Json;
  deployments_whatIf :
    Client -> Target -> string -> Deployment.t -> Outcome WhatIfOperationResult;
  stacks_createOrUpdate :
    Client -> Target -> string -> DeploymentStack.t -> Outcome Resource;
  stacks_validateStack :
    Client -> Target -> string -> DeploymentStack.t -> Outcome Json;
  stacks_delete :
    Client -> Target -> string -> DeletionOptions -> Outcome unit;
}.

(** An action: what it yields or throws, and the events it caused. *)
Record Action (A : Type) : Type := mkAction {
  outcome : Outcome A;
  trace : list Event;
}.
Arguments mkAction {A} outcome trace.

#[export] Instance Monad_Action : Monad Action := {
  ret := fun _ a => mkAction (Return a) [];
  bind := fun _ _ m f =>
    match outcome m with
    | Return a => mkAction (outcome (f a)) (trace m ++ trace (f a))%list
    | Throw e => mkAction (Throw e) (trace m)
    end;
}.

(** [raise] is [throw]; [catch m h] is [try { m } catch (e) { h e }]. *)
#[export] Instance Exception_Action : MonadExc Exn Action := {
  raise := fun _ e => mkAction (Throw e) [];
  catch := fun _ m h =>
    match outcome m with
    | Return a => m
    | Throw e => mkAction (outcome (h e)) (trace m ++ trace (h e))%list
    end;
}.

Definition lift {A : Type} (o : Outcome A) : Action A := mkAction o [].

Definition emit (e : Event) : Action unit := mkAction (Return tt) [e].

(** Modelled from the spec: the logging helpers of [helpers/logging.ts],
    which is not among the sources, write a line each; [setFailed],
    [setOutput] and [setSecret] are those of the actions toolkit. *)
Definition logError (msg : string) : Action unit := emit (LogError msg).
Definition logInfoRaw (msg : string) : Action unit := emit (LogInfoRaw msg).
Definition setFailed (msg : string) : Action unit := emit (SetFailed msg).
Definition setOutput (key v : string) : Action unit := emit (SetOutput key v).
Definition setSecret (v : string) : Action unit := emit (SetSecret v).

(** [for (const x of l) { body x }] *)
Fixpoint forOf {A : Type} (l : list A) (body : A -> Action unit)
  : Action unit :=
  match l with
  | [] => ret tt
  | x :: l' => body x ;; forOf l' body
  end.

(* ===================================================================== *)
(** ** The handler *)
(* ===================================================================== *)

Definition defaultName : string := "azure-bicep-deploy".

Definition getDeploymentClient (scope : Scope) : Client :=
  let tenantId := scope_tenantId scope in
  let subscriptionId := scope_subscriptionId scope in
  createDeploymentClient subscriptionId tenantId.

Definition getStacksClient (scope : Scope) : Client :=
  let tenantId := scope_tenantId scope in
  let subscriptionId := scope_subscriptionId scope in
  createStacksClient subscriptionId tenantId.

Definition templateLinkOf (templateSpecId : option string)
  : option TemplateLink :=
  if truthy templateSpecId
  then Some (mkTemplateLink (toString templateSpecId))
  else None.

Definition getDeployment (config : DeploymentsConfig) (files : ParsedFiles)
  : Deployment.t :=
  Deployment.mk
    (location (d_common config))
    (Deployment.mkProperties
       "Incremental"
       (templateContents files)
       (templateLinkOf (templateSpecId files))
       (parameters (parametersContents files))
       (Deployment.mkOptions "inner"))
    (tags (d_common config)).

Definition getStack (config : DeploymentStackConfig) (files : ParsedFiles)
  : DeploymentStack.t :=
  DeploymentStack.mk
    None
    (DeploymentStack.mkProperties
       (templateContents files)
       (templateLinkOf (templateSpecId files))
       (parameters (parametersContents files))
       (description config)
       (actionOnUnManage config)
       (denySettings config)
       (bypassStackOutOfSyncError config))
    (tags (s_common config)).

Definition getStackDeletionOptions (config : DeploymentStackConfig)
  : DeletionOptions :=
  mkDeletionOptions
    (resources (actionOnUnManage config))
    (resourceGroups (actionOnUnManage config))
    (managementGroups (actionOnUnManage config))
    (bypassStackOutOfSyncError config).

Definition requireLocation (config : CommonConfig) : Action string :=
  if negb (truthy (location config))
  then raise (Error "Location is required")
  else ret (toString (location config)).

(** [result?.properties?.outputs] *)
Definition outputsOf (result : option Resource) : option Outputs :=
  match result with
  | Some r =>
      match properties r with
      | Some p => outputs p
      | None => None
      end
  | None => None
  end.

Definition correlationHeader : string := "x-ms-correlation-request-id".

Section Handler.

Variable service : Service.
Variable JSON_parse : string -> option Json.
Variable JSON_stringify : Json -> string.      (* JSON.stringify(x, null, 2) *)
Variable formatWhatIfOperationResult : WhatIfOperationResult -> string -> string.

(** [x.toLowerCase()] on text that may hold any letter, as the keys of the
    outputs and the masked names do: the method of the runtime, which folds
    the cased letters of every script. On ASCII text it is [toLowerCase]. *)
Variable String_toLowerCase : string -> string.

(** Output projection. [Object.keys(outputs)] with [outputs[key]] walks the
    entries of the object. *)
Definition isMasked (config : CommonConfig) (key : string) : bool :=
  match maskedOutputs config with
  | Some masked =>
      existsb (fun x => String_toLowerCase x =? String_toLowerCase key) masked
  | None => false
  end.

Definition setCreateOutputs (config : CommonConfig)
                            (outputs : option Outputs) : Action unit :=
  match outputs with
  | None => ret tt
  | Some outs =>
      forOf outs (fun entry =>
        let key := fst entry in
        let output := snd entry in
        setOutput key (value output) ;;
        if isMasked config key then setSecret (value output) else ret tt)
  end.

(** The remote operations: each one is recorded and then answers as the
    service does. *)
Definition beginCreateOrUpdate client target name d : Action Resource :=
  mkAction (deployments_createOrUpdate service client target name d)
           [Remote (BeginCreateOrUpdate client target name d)].

Definition beginValidate client target name d : Action Json :=
  mkAction (deployments_validate service client target name d)
           [Remote (BeginValidate client target name d)].

Definition beginWhatIf client target name d : Action WhatIfOperationResult :=
  mkAction (deployments_whatIf service client target name d)
           [Remote (BeginWhatIf client target name d)].

Definition stacksBeginCreateOrUpdate client target name s : Action Resource :=
  mkAction (stacks_createOrUpdate service client target name s)
           [Remote (StacksBeginCreateOrUpdate client target name s)].

Definition stacksBeginValidateStack client target name s : Action Json :=
  mkAction (stacks_validateStack service client target name s)
           [Remote (StacksBeginValidateStack client target name s)].

Definition stacksBeginDelete client target name o : Action unit :=
  mkAction (stacks_delete service client target name o)
           [Remote (StacksBeginDelete client target name o)].

Definition deploymentCreate (config : DeploymentsConfig)
                            (files : ParsedFiles)
  : Action (option Resource) :=
  let name := nullish (name (d_common config)) defaultName in
  let scope := scope (d_common config) in
  let client := getDeploymentClient scope in
  let deployment := getDeployment config files in
  match scope with
  | ResourceGroupScope _ _ rg =>
      r <- beginCreateOrUpdate client (AtResourceGroup rg)
                               name deployment ;;
      ret (Some r)
  | SubscriptionScope _ _ =>
      l <- requireLocation (d_common config) ;;
      r <- beginCreateOrUpdate client AtSubscription name
                               (Deployment.withLocation deployment l) ;;
      ret (Some r)
  | ManagementGroupScope _ mg =>
      l <- requireLocation (d_common config) ;;
      r <- beginCreateOrUpdate client (AtManagementGroup mg)
                               name (Deployment.withLocation deployment l) ;;
      ret (Some r)
  | TenantScope _ =>
      l <- requireLocation (d_common config) ;;
      beginCreateOrUpdate client AtTenant name
                          (Deployment.withLocation deployment l) ;;
      ret None
  end.

Definition deploymentValidate (config : DeploymentsConfig)
                              (files : ParsedFiles)
  : Action (option Json) :=
  let name := nullish (name (d_common config)) defaultName in
  let scope := scope (d_common config) in
  let client := getDeploymentClient scope in
  let deployment := getDeployment config files in
  match scope with
  | ResourceGroupScope _ _ rg =>
      r <- beginValidate client (AtResourceGroup rg)
                         name deployment ;;
      ret (Some r)
  | SubscriptionScope _ _ =>
      l <- requireLocation (d_common config) ;;
      r <- beginValidate client AtSubscription name
                         (Deployment.withLocation deployment l) ;;
      ret (Some r)
  | ManagementGroupScope _ mg =>
      l <- requireLocation (d_common config) ;;
      r <- beginValidate client (AtManagementGroup mg)
                         name (Deployment.withLocation deployment l) ;;
      ret (Some r)
  | TenantScope _ =>
      l <- requireLocation (d_common config) ;;
      beginValidate client AtTenant name
                    (Deployment.withLocation deployment l) ;;
      ret None
  end.

Definition deploymentWhatIf (config : DeploymentsConfig)
                            (files : ParsedFiles)
  : Action WhatIfOperationResult :=
  let deploymentName := nullish (name (d_common config)) defaultName in
  let scope := scope (d_common config) in
  let client := getDeploymentClient scope in
  let deployment := getDeployment config files in
  match scope with
  | ResourceGroupScope _ _ rg =>
      beginWhatIf client (AtResourceGroup rg)
                  deploymentName deployment
  | SubscriptionScope _ _ =>
      l <- requireLocation (d_common config) ;;
      beginWhatIf client AtSubscription deploymentName
                  (Deployment.withLocation deployment l)
  | ManagementGroupScope _ mg =>
      l <- requireLocation (d_common config) ;;
      beginWhatIf client (AtManagementGroup mg)
                  deploymentName (Deployment.withLocation deployment l)
  | TenantScope _ =>
      l <- requireLocation (d_common config) ;;
      beginWhatIf client AtTenant deploymentName
                  (Deployment.withLocation deployment l)
  end.

(** The stack operations have no case for the tenant scope: the [switch]
    falls through and the function yields [undefined]. *)
Definition stackCreate (config : DeploymentStackConfig)
                       (files : ParsedFiles)
  : Action (option Resource) :=
  let name := nullish (name (s_common config)) defaultName in
  let scope := scope (s_common config) in
  let client := getStacksClient scope in
  let stack := getStack config files in
  match scope with
  | ResourceGroupScope _ _ rg =>
      r <- stacksBeginCreateOrUpdate client (AtResourceGroup rg)
                                     name stack ;;
      ret (Some r)
  | SubscriptionScope _ _ =>
      l <- requireLocation (s_common config) ;;
      r <- stacksBeginCreateOrUpdate client AtSubscription name
                                     (DeploymentStack.withLocation stack l) ;;
      ret (Some r)
  | ManagementGroupScope _ mg =>
      l <- requireLocation (s_common config) ;;
      r <- stacksBeginCreateOrUpdate client
             (AtManagementGroup mg) name
             (DeploymentStack.withLocation stack l) ;;
      ret (Some r)
  | TenantScope _ => ret None
  end.

Definition stackValidate (config : DeploymentStackConfig)
                         (files : ParsedFiles)
  : Action (option Json) :=
  let name := nullish (name (s_common config)) defaultName in
  let scope := scope (s_common config) in
  let client := getStacksClient scope in
  let stack := getStack config files in
  match scope with
  | ResourceGroupScope _ _ rg =>
      r <- stacksBeginValidateStack client (AtResourceGroup rg)
                                    name stack ;;
      ret (Some r)
  | SubscriptionScope _ _ =>
      l <- requireLocation (s_common config) ;;
      r <- stacksBeginValidateStack client AtSubscription name
                                    (DeploymentStack.withLocation stack l) ;;
      ret (Some r)
  | ManagementGroupScope _ mg =>
      l <- requireLocation (s_common config) ;;
      r <- stacksBeginValidateStack client
             (AtManagementGroup mg) name
             (DeploymentStack.withLocation stack l) ;;
      ret (Some r)
  | TenantScope _ => ret None
  end.

Definition stackDelete (config : DeploymentStackConfig) : Action unit :=
  let name := nullish (name (s_common config)) defaultName in
  let scope := scope (s_common config) in
  let client := getStacksClient scope in
  let deletionOptions := getStackDeletionOptions config in
  match scope with
  | ResourceGroupScope _ _ rg =>
      stacksBeginDelete client (AtResourceGroup rg)
                        name deletionOptions
  | SubscriptionScope _ _ =>
      stacksBeginDelete client AtSubscription name deletionOptions
  | ManagementGroupScope _ mg =>
      stacksBeginDelete client (AtManagementGroup mg)
                        name deletionOptions
  | TenantScope _ => ret tt
  end.

(** [ex.response?.headers.get("x-ms-correlation-request-id")] *)
Definition correlationIdOf (ex : RestError) : option string :=
  match response ex with
  | Some r => headers_get (headers r) correlationHeader
  | None => None
  end.

Definition tryWithErrorHandling {T : Type} (action : Action T)
    (onError : ErrorResponse -> Action unit) : Action (option T) :=
  catch
    (r <- action ;; ret (Some r))
    (fun ex =>
       match ex with
       | Rest e =>
           let correlationId := correlationIdOf e in
           logError ("Request failed. CorrelationId: "
                       ++ toString correlationId) ;;
           (* const { error } = ex.details as CloudError *)
           match details e with
           | None =>
               raise (TypeError
                 "Cannot destructure property 'error' of 'ex.details' as it is undefined.")
           | Some cloudError =>
               match error cloudError with
               | Some err => onError err ;; ret None
               | None => raise ex
               end
           end
       | _ => raise ex
       end).

Definition onCreateError (err : ErrorResponse) : Action unit :=
  logError (JSON_stringify (ErrorResponse_toJson err)) ;;
  setFailed "Create failed".

Definition onValidateError (err : ErrorResponse) : Action unit :=
  logError (JSON_stringify (ErrorResponse_toJson err)) ;;
  setFailed "Validation failed".

(** The [try] block of [execute]. *)
Definition dispatch (config : ActionConfig) (files : ParsedFiles)
  : Action unit :=
  lift (validateFileScope config files) ;;
  match config with
  | deployment config =>
      match d_operation config with
      | dCreate =>
          tryWithErrorHandling
            (result <- deploymentCreate config files ;;
             setCreateOutputs (d_common config) (outputsOf result))
            onCreateError ;;
          ret tt
      | dValidate =>
          tryWithErrorHandling (deploymentValidate config files)
                               onValidateError ;;
          ret tt
      | dWhatIf =>
          result <- deploymentWhatIf config files ;;
          let formatted := formatWhatIfOperationResult result "ansii" in
          logInfoRaw formatted
      end
  | deploymentStack config =>
      match s_operation config with
      | sCreate =>
          tryWithErrorHandling
            (result <- stackCreate config files ;;
             setCreateOutputs (s_common config) (outputsOf result))
            onCreateError ;;
          ret tt
      | sValidate =>
          tryWithErrorHandling (stackValidate config files)
                               onValidateError ;;
          ret tt
      | sDelete => stackDelete config
      end
  end.

(** The [catch] block of [execute]. *)
Definition onFailure (error : Exn) : Action unit :=
  match error with
  | Rest e =>
      match response e with
      | Some r =>
          if truthy (bodyAsText r) then
            let correlationId := headers_get (headers r) correlationHeader in
            logError ("Request failed. CorrelationId: "
                        ++ toString correlationId) ;;
            match JSON_parse (toString (bodyAsText r)) with
            | Some responseBody => logError (JSON_stringify responseBody)
            | None =>
                raise (SyntaxError "Unexpected token in JSON")
            end
          else ret tt
      | None => ret tt
      end
  | _ => ret tt
  end ;;
  setFailed "Operation failed" ;;
  raise error.

Definition execute (config : ActionConfig) (files : ParsedFiles)
  : Action unit :=
  catch (dispatch config files) onFailure.

End Handler.

(* ===================================================================== *)
(** ** The debug logging policy of the clients *)
(* ===================================================================== *)

Module Policy.

(** [PipelineRequest], as far as the policy reads it; [body] is the text
    [request.body.toString()] yields when there is a body. *)
Record PipelineRequest : Type := mkPipelineRequest {
  method : string;
  url : string;
  body : option string;
}.

(** The response with its status. *)
Record Response : Type := mkResponse {
  status : nat;
  content : PipelineResponse;
}.

Inductive Event : Type :=
| Debug (msg : string)                  (* a line of debug output *)
| Next (request : PipelineRequest).     (* next(request) *)

Record Step (A : Type) : Type := mkStep {
  result : Outcome A;
  log : list Event;
}.
Arguments mkStep {A} result log.

#[export] Instance Monad_Step : Monad Step := {
  ret := fun _ a => mkStep (Return a) [];
  bind := fun _ _ m f =>
    match result m with
    | Return a => mkStep (result (f a)) (log m ++ log (f a))%list
    | Throw e => mkStep (Throw e) (log m)
    end;
}.

Definition debug (msg : string) : Step unit := mkStep (Return tt) [Debug msg].

(** A number in a template literal. *)
Definition showNumber (n : nat) : string :=
  NilZero.string_of_uint (Nat.to_uint n).

Section SendRequest.

Variable isDebug : bool.
Variable JSON_parse : string -> option Json.
Variable JSON_stringify : Json -> string.      (* JSON.stringify(x, null, 2) *)
Variable next : PipelineRequest -> Outcome Response.

Definition parseJson (text : string) : Step Json :=
  match JSON_parse text with
  | Some parsed => ret parsed
  | None => mkStep (Throw (SyntaxError "Unexpected token in JSON")) []
  end.

Definition sendRequest (request : PipelineRequest) : Step Response :=
  (if isDebug then
     debug ("Request: " ++ method request ++ " " ++ url request) ;;
     if truthy (body request) then
       parsed <- parseJson (toString (body request)) ;;
       debug ("Body: " ++ JSON_stringify parsed)
     else ret tt
   else ret tt) ;;
  response <- mkStep (next request) [Next request] ;;
  (if isDebug then
     debug ("Response: " ++ showNumber (status response)) ;;
     (if truthy (bodyAsText (content response)) then
        parsed <- parseJson (toString (bodyAsText (content response))) ;;
        debug ("Body: " ++ JSON_stringify parsed)
      else ret tt) ;;
     let correlationId :=
       headers_get (headers (content response)) "x-ms-correlation-request-id" in
     debug ("CorrelationId: " ++ toString correlationId) ;;
     let activityId :=
       headers_get (headers (content response)) "x-ms-request-id" in
     debug ("ActivityId: " ++ toString activityId)
   else ret tt) ;;
  ret response.

End SendRequest.

End Policy.

(* ===================================================================== *)
(** ** Sample collaborators and inputs *)
(* ===================================================================== *)

Module Samples.

Definition dq : string := String (ascii_of_nat 34) EmptyString.

(** The body of a failed validation: an object whose [error] member holds
    the code [InvalidTemplateDeployment]. *)
Definition invalidTemplateBody : string :=
  "{" ++ dq ++ "error" ++ dq ++ ":{" ++ dq ++ "code" ++ dq ++ ":"
      ++ dq ++ "InvalidTemplateDeployment" ++ dq ++ "}}".

(** [JSON.parse] on the texts that occur below. *)
Definition parse (text : string) : option Json :=
  if text =? "{}" then Some (JObject [])
  else if text =? invalidTemplateBody
  then Some (JObject [("error",
               JObject [("code", JString "InvalidTemplateDeployment")])])
  else None.

(** A rendering of documents that shows the top-level member names. *)
Definition stringify (j : Json) : string :=
  match j with
  | JObject members => "{" ++ String.concat "," (map fst members) ++ "}"
  | _ => "?"
  end.

Definition formatWhatIf (r : WhatIfOperationResult) (colors : string)
  : string := "what-if: " ++ stringify r.

Definition sampleOutputs : Outputs :=
  [("foo", mkOutputValue "bar"); ("secretOut", mkOutputValue "baz")].

Definition created : Resource :=
  mkResource (Some (mkResultProperties (Some sampleOutputs))).

(** A service on which every operation succeeds. *)
Definition succeeding : Service :=
  mkService (fun _ _ _ _ => Return created)
            (fun _ _ _ _ => Return (JObject []))
            (fun _ _ _ _ => Return (JObject []))
            (fun _ _ _ _ => Return created)
            (fun _ _ _ _ => Return (JObject []))
            (fun _ _ _ _ => Return tt).

(** A service on which every operation throws [ex]. *)
Definition failing (ex : Exn) : Service :=
  mkService (fun _ _ _ _ => Throw ex) (fun _ _ _ _ => Throw ex)
            (fun _ _ _ _ => Throw ex) (fun _ _ _ _ => Throw ex)
            (fun _ _ _ _ => Throw ex) (fun _ _ _ _ => Throw ex).

Definition invalidTemplate : ErrorResponse :=
  mkErrorResponse (Some "InvalidTemplateDeployment")
                  (Some "The template deployment is not valid.") None [].

Definition serviceError : RestError :=
  mkRestError
    "The template deployment is not valid."
    (Some (mkPipelineResponse
             [("x-ms-correlation-request-id", "c0ffee")]
             (Some invalidTemplateBody)))
    (Some (mkCloudError (Some invalidTemplate))).

(** A request that never got a response. *)
Definition networkError : RestError :=
  mkRestError "getaddrinfo ENOTFOUND management.azure.com" None None.

(** A response whose body is not JSON. *)
Definition gatewayError : RestError :=
  mkRestError "Bad Gateway"
    (Some (mkPipelineResponse [("X-Ms-Correlation-Request-Id", "bad9a7e")]
                              (Some "<html>Bad Gateway</html>")))
    None.

Definition commonAt (s : Scope) (loc : option string) : CommonConfig :=
  mkCommonConfig (Some "e2e") loc None (Some ["SecretOut"]) s.

Definition rgScope : Scope := ResourceGroupScope None "sub-1" "rg-1".
Definition subScope : Scope := SubscriptionScope None "sub-1".
Definition mgScope : Scope := ManagementGroupScope None "mg-1".
Definition tenantScope : Scope := TenantScope (Some "tenant-1").

Definition deploy (op : DeploymentOperation) (s : Scope)
                  (loc : option string) : ActionConfig :=
  deployment (mkDeploymentsConfig (commonAt s loc) op).

Definition stackConfig (op : StackOperation) (s : Scope)
                       (loc : option string) : DeploymentStackConfig :=
  mkDeploymentStackConfig (commonAt s loc) op None
    (mkActionOnUnmanage "delete" None None)
    (mkDenySettings "none" [] [] None) None.

Definition stack (op : StackOperation) (s : Scope) (loc : option string)
  : ActionConfig := deploymentStack (stackConfig op s loc).

Definition generated (schemaUri : string) : Template :=
  mkTemplate (Some schemaUri)
             (Some (mkMetadata (Some (mkGenerator (Some "bicep") (Some "0.30.23")))))
             [("contentVersion", "1.0.0.0")].

Definition handwritten (schemaUri : string) : Template :=
  mkTemplate (Some schemaUri) None [("contentVersion", "1.0.0.0")].

Definition filesOf (t : Template) : ParsedFiles :=
  mkParsedFiles (Some t) None (mkParametersContents (Some [])).

Definition specOnly (specId : string) : ParsedFiles :=
  mkParsedFiles None (Some specId) (mkParametersContents (Some [])).

Definition rgSchema : string :=
  "https://schema.management.azure.com/schemas/2019-04-01/deploymentTemplate.json#".
Definition tenantSchema : string :=
  "https://schema.management.azure.com/schemas/2019-08-01/tenantDeploymentTemplate.json#".

Definition subscriptionSchema : string :=
  "https://schema.management.azure.com/schemas/2018-05-01/subscriptionDeploymentTemplate.json#".
Definition unknownSchema : string :=
  "https://schema.management.azure.com/schemas/2019-04-01/resourceGroupDeploymentTemplate.json#".

(** Parsed files that hold both a template and a template-spec id. *)
Definition specAndTemplate : ParsedFiles :=
  mkParsedFiles (Some (generated rgSchema)) (Some "spec-1")
                (mkParametersContents (Some [])).

Definition validateRg : DeploymentsConfig :=
  mkDeploymentsConfig (commonAt rgScope None) dValidate.

Definition tenantCreate : DeploymentsConfig :=
  mkDeploymentsConfig (commonAt tenantScope (Some "westus")) dCreate.

(** A failed request whose body holds no [error] member. *)
Definition plainError : RestError :=
  mkRestError "Conflict" None (Some (mkCloudError None)).

(** The reply of a gateway, with details that hold no [error] member. *)
Definition gatewayReply : RestError :=
  mkRestError "Bad Gateway" (response gatewayError)
              (Some (mkCloudError None)).

Definition whatIfRg : ActionConfig := deploy dWhatIf rgScope None.

Definition createRg : ActionConfig := deploy dCreate rgScope None.

Definition stackAtSubscription : DeploymentStackConfig :=
  stackConfig sCreate subScope (Some "westus").

Definition deleteAtSubscription : DeploymentStackConfig :=
  stackConfig sDelete subScope None.

Definition rgFiles : ParsedFiles := filesOf (generated rgSchema).

(** A run with the sample collaborators. The names of the samples are ASCII
    text, which the runtime lower-cases as [toLowerCase] does. *)
Definition run (svc : Service) :=
  execute svc parse stringify formatWhatIf toLowerCase.

End Samples.

(* ===================================================================== *)
(** ** Vocabulary of the properties *)
(* ===================================================================== *)

Fixpoint allChars (cls : ascii -> bool) (s : string) : bool :=
  match s with
  | EmptyString => true
  | String c s' => cls c && allChars cls s'
  end.

(** The remainders a greedy run leaves behind while it gives back the
    characters of [a] one at a time, [b] being what follows [a]. *)
Fixpoint tails (a b : string) : list string :=
  match a with
  | EmptyString => []
  | String _ a' => (tails a' b ++ [(a' ++ b)%string])%list
  end.

(** The match a backtracking matcher reports at the start of [s]. *)
Definition firstMatch (r : regex) (s : string)
  : option (list (option string) * string) :=
  hd_error (matches r s).

Definition templateSuffix : string := "Template.json".

Definition afterToken : regex := Seq (Lit templateSuffix) (Opt (Lit "#")).

Definition tokenPattern : regex := Seq (Group (Plus isLetter)) afterToken.

Definition remoteCalls (events : list Event) : list RemoteCall :=
  flat_map (fun e => match e with Remote c => [c] | _ => [] end) events.

Definition discard {A : Type} (o : Outcome A) : Outcome unit :=
  match o with
  | Return _ => Return tt
  | Throw e => Throw e
  end.

(** How the service answers a call, whatever it returns. *)
Definition answer (svc : Service) (c : RemoteCall) : Outcome unit :=
  match c with
  | BeginCreateOrUpdate cl t n d =>
      discard (deployments_createOrUpdate svc cl t n d)
  | BeginValidate cl t n d => discard (deployments_validate svc cl t n d)
  | BeginWhatIf cl t n d => discard (deployments_whatIf svc cl t n d)
  | StacksBeginCreateOrUpdate cl t n s =>
      discard (stacks_createOrUpdate svc cl t n s)
  | StacksBeginValidateStack cl t n s =>
      discard (stacks_validateStack svc cl t n s)
  | StacksBeginDelete cl t n o => discard (stacks_delete svc cl t n o)
  end.

Definition locationSet (config : CommonConfig) : bool :=
  truthy (location config).

(** What becomes of the one remote operation of a configuration: it is
    invoked, or the location it needs is missing, or the operation has no
    case for the scope. *)
Inductive Reach : Type := CallsRemote | LacksLocation | LacksCase.

Definition reachWithLocation (config : CommonConfig) : Reach :=
  if locationSet config then CallsRemote else LacksLocation.

Definition reach (config : ActionConfig) : Reach :=
  match config with
  | deployment c =>
      match scope (d_common c) with
      | ResourceGroupScope _ _ _ => CallsRemote
      | _ => reachWithLocation (d_common c)
      end
  | deploymentStack c =>
      match scope (s_common c), s_operation c with
      | TenantScope _, _ => LacksCase
      | _, sDelete => CallsRemote
      | ResourceGroupScope _ _ _, _ => CallsRemote
      | _, _ => reachWithLocation (s_common c)
      end
  end.

(** The three ways an operation of the handler runs. *)
Inductive Run {A : Type} (svc : Service) (m : Action A) : Reach -> Prop :=
| RunCalled (c : RemoteCall) :
    trace m = [Remote c] -> discard (outcome m) = answer svc c ->
    Run svc m CallsRemote
| RunLacksLocation :
    m = raise (Error "Location is required") -> Run svc m LacksLocation
| RunLacksCase (a : A) :
    m = ret a -> Run svc m LacksCase.

Ltac called svc :=
  lazymatch goal with
  | |- context [mkAction ?o [Remote ?c]] =>
      let E := fresh "E" in
      destruct o eqn:E;
      (apply (@RunCalled _ svc _ c);
       [reflexivity | unfold answer; rewrite E; reflexivity])
  end.

(** [unit_law] is the left-unit law of the monad of actions. *)
Ltac by_location svc config unit_law :=
  unfold reachWithLocation, locationSet, requireLocation;
  destruct (truthy (location config)); cbn [negb];
  [ rewrite unit_law; called svc | now apply RunLacksLocation ].

Ltac break_match :=
  match goal with
  | |- context [match ?x with _ => _ end] =>
      lazymatch x with
      | context [match _ with _ => _ end] => fail
      | _ => destruct x eqn:?
      end
  end.

(** The remote calls of the operation a configuration selects. *)
Definition operationCalls (svc : Service) (config : ActionConfig)
                          (files : ParsedFiles) : list RemoteCall :=
  match config with
  | deployment c =>
      match d_operation c with
      | dCreate => remoteCalls (trace (deploymentCreate svc c files))
      | dValidate => remoteCalls (trace (deploymentValidate svc c files))
      | dWhatIf => remoteCalls (trace (deploymentWhatIf svc c files))
      end
  | deploymentStack c =>
      match s_operation c with
      | sCreate => remoteCalls (trace (stackCreate svc c files))
      | sValidate => remoteCalls (trace (stackValidate svc c files))
      | sDelete => remoteCalls (trace (stackDelete svc c))
      end
  end.

(** Whether an operation asks for the location of the configuration: every
    deployment operation above the resource-group scope, and creating or
    validating a stack at subscription or management-group scope. *)
Definition requiresLocation (config : ActionConfig) : bool :=
  match config with
  | deployment c =>
      match scope (d_common c) with
      | ResourceGroupScope _ _ _ => false
      | _ => true
      end
  | deploymentStack c =>
      match scope (s_common c), s_operation c with
      | (SubscriptionScope _ _ | ManagementGroupScope _ _),
        (sCreate | sValidate) => true
      | _, _ => false
      end
  end.

(** Whether the operation has a case for the scope: the stack operations
    have none for the tenant scope. *)
Definition hasCase (config : ActionConfig) : bool :=
  match config with
  | deployment _ => true
  | deploymentStack c =>
      match scope (s_common c) with
      | TenantScope _ => false
      | _ => true
      end
  end.

(** The message of the failure a structured service error is turned into. *)
Definition failureMessage (config : ActionConfig) : option string :=
  match config with
  | deployment c =>
      match d_operation c with
      | dCreate => Some "Create failed"
      | dValidate => Some "Validation failed"
      | dWhatIf => None
      end
  | deploymentStack c =>
      match s_operation c with
      | sCreate => Some "Create failed"
      | sValidate => Some "Validation failed"
      | sDelete => None
      end
  end.

Ltac break_match_in H :=
  match type of H with
  | context [match ?x with _ => _ end] =>
      lazymatch x with
      | context [match _ with _ => _ end] => fail
      | _ => destruct x eqn:?
      end
  end.

(** The events that write to the output channel of the action. *)
Definition writesOutput (e : Event) : bool :=
  match e with
  | SetOutput _ _ | SetSecret _ => true
  | _ => false
  end.

(** ASCII text. *)
Definition isAscii (c : ascii) : bool := (nat_of_ascii c <? 128)%nat.

Definition isAsciiText (s : string) : bool := allChars isAscii s.

(** Two characters that are equal, or the capital and the small form of one
    of the letters A to Z: the small form is 32 above the capital. *)
Definition sameLetter (a b : ascii) : bool :=
  (nat_of_ascii a =? nat_of_ascii b)%nat
  || (isUpper a && (nat_of_ascii b =? nat_of_ascii a + 32)%nat)
  || (isUpper b && (nat_of_ascii a =? nat_of_ascii b + 32)%nat).

(** Two texts that differ at most in the case of their letters. *)
Fixpoint equalIgnoringCase (s t : string) : bool :=
  match s, t with
  | EmptyString, EmptyString => true
  | String a s', String b t' => sameLetter a b && equalIgnoringCase s' t'
  | _, _ => false
  end.

(** A key is masked when the lower-casing of the runtime makes it equal to
    an entry of [maskedOutputs]. *)
Definition matchesMasked (lower : string -> string)
                         (config : CommonConfig) (key : string) : Prop :=
  exists masked m,
    maskedOutputs config = Some masked
    /\ In m masked
    /\ lower m = lower key.

(** What the projection of one output entry writes. *)
Definition projected (lower : string -> string) (config : CommonConfig)
                     (entry : string * OutputValue) : list Event :=
  if isMasked lower config (fst entry)
  then [SetOutput (fst entry) (value (snd entry)); SetSecret (value (snd entry))]
  else [SetOutput (fst entry) (value (snd entry))].

(** The remote call of a deployment create at tenant scope. *)
Definition tenantCreateCall (config : DeploymentsConfig)
                            (files : ParsedFiles) : RemoteCall :=
  BeginCreateOrUpdate
    (getDeploymentClient (scope (d_common config))) AtTenant
    (nullish (name (d_common config)) defaultName)
    (Deployment.withLocation (getDeployment config files)
                             (toString (location (d_common config)))).

(** The target a scope is addressed at. *)
Definition targetOf (s : Scope) : Target :=
  match s with
  | ResourceGroupScope _ _ rg => AtResourceGroup rg
  | SubscriptionScope _ _ => AtSubscription
  | ManagementGroupScope _ mg => AtManagementGroup mg
  | TenantScope _ => AtTenant
  end.

(** The six families of client methods. *)
Inductive Method : Type :=
| CreateOrUpdate | Validate | WhatIf
| StackCreateOrUpdate | StackValidate | StackDelete.

Definition callMethod (c : RemoteCall) : Method :=
  match c with
  | BeginCreateOrUpdate _ _ _ _ => CreateOrUpdate
  | BeginValidate _ _ _ _ => Validate
  | BeginWhatIf _ _ _ _ => WhatIf
  | StacksBeginCreateOrUpdate _ _ _ _ => StackCreateOrUpdate
  | StacksBeginValidateStack _ _ _ _ => StackValidate
  | StacksBeginDelete _ _ _ _ => StackDelete
  end.

Definition callClient (c : RemoteCall) : Client :=
  match c with
  | BeginCreateOrUpdate cl _ _ _ | BeginValidate cl _ _ _
  | BeginWhatIf cl _ _ _ | StacksBeginCreateOrUpdate cl _ _ _
  | StacksBeginValidateStack cl _ _ _ | StacksBeginDelete cl _ _ _ => cl
  end.

Definition callTarget (c : RemoteCall) : Target :=
  match c with
  | BeginCreateOrUpdate _ t _ _ | BeginValidate _ t _ _
  | BeginWhatIf _ t _ _ | StacksBeginCreateOrUpdate _ t _ _
  | StacksBeginValidateStack _ t _ _ | StacksBeginDelete _ t _ _ => t
  end.

Definition callName (c : RemoteCall) : string :=
  match c with
  | BeginCreateOrUpdate _ _ n _ | BeginValidate _ _ n _
  | BeginWhatIf _ _ n _ | StacksBeginCreateOrUpdate _ _ n _
  | StacksBeginValidateStack _ _ n _ | StacksBeginDelete _ _ n _ => n
  end.

(** The request body of a call, by its kind. *)
Definition callDeployment (c : RemoteCall) : option Deployment.t :=
  match c with
  | BeginCreateOrUpdate _ _ _ d | BeginValidate _ _ _ d
  | BeginWhatIf _ _ _ d => Some d
  | _ => None
  end.

Definition callStack (c : RemoteCall) : option DeploymentStack.t :=
  match c with
  | StacksBeginCreateOrUpdate _ _ _ s
  | StacksBeginValidateStack _ _ _ s => Some s
  | _ => None
  end.

Definition callDeletionOptions (c : RemoteCall) : option DeletionOptions :=
  match c with
  | StacksBeginDelete _ _ _ o => Some o
  | _ => None
  end.

(** The method family of a kind of resource and an operation. *)
Definition methodOf (config : ActionConfig) : Method :=
  match config with
  | deployment c =>
      match d_operation c with
      | dCreate => CreateOrUpdate
      | dValidate => Validate
      | dWhatIf => WhatIf
      end
  | deploymentStack c =>
      match s_operation c with
      | sCreate => StackCreateOrUpdate
      | sValidate => StackValidate
      | sDelete => StackDelete
      end
  end.

(** What the service answers to a create call and to a what-if call. *)
Definition returned (svc : Service) (c : RemoteCall)
  : option (Outcome Resource) :=
  match c with
  | BeginCreateOrUpdate cl t n d =>
      Some (deployments_createOrUpdate svc cl t n d)
  | StacksBeginCreateOrUpdate cl t n s =>
      Some (stacks_createOrUpdate svc cl t n s)
  | _ => None
  end.

Definition predicted (svc : Service) (c : RemoteCall)
  : option (Outcome WhatIfOperationResult) :=
  match c with
  | BeginWhatIf cl t n d => Some (deployments_whatIf svc cl t n d)
  | _ => None
  end.

(** The body of a stack call: above the resource-group scope the location
    is spread into it. *)
Definition stackBody (config : DeploymentStackConfig) (files : ParsedFiles)
  : DeploymentStack.t :=
  match scope (s_common config) with
  | SubscriptionScope _ _ | ManagementGroupScope _ _ =>
      DeploymentStack.withLocation (getStack config files)
        (toString (location (s_common config)))
  | _ => getStack config files
  end.

(** The call of a configuration, when it makes one. *)
Definition expectedCall (config : ActionConfig) (files : ParsedFiles)
  : RemoteCall :=
  match config with
  | deployment c =>
      let client := getDeploymentClient (scope (d_common c)) in
      let target := targetOf (scope (d_common c)) in
      let name := nullish (name (d_common c)) defaultName in
      match d_operation c with
      | dCreate => BeginCreateOrUpdate client target name (getDeployment c files)
      | dValidate => BeginValidate client target name (getDeployment c files)
      | dWhatIf => BeginWhatIf client target name (getDeployment c files)
      end
  | deploymentStack c =>
      let client := getStacksClient (scope (s_common c)) in
      let target := targetOf (scope (s_common c)) in
      let name := nullish (name (s_common c)) defaultName in
      match s_operation c with
      | sCreate =>
          StacksBeginCreateOrUpdate client target name (stackBody c files)
      | sValidate =>
          StacksBeginValidateStack client target name (stackBody c files)
      | sDelete =>
          StacksBeginDelete client target name (getStackDeletionOptions c)
      end
  end.

(** The events that report a failure. *)
Definition reportsFailure (e : Event) : bool :=
  match e with
  | LogError _ | SetFailed _ => true
  | _ => false
  end.

Definition marksFailed (e : Event) : bool :=
  match e with
  | SetFailed _ => true
  | _ => false
  end.

(** The lower-case scope token of each scope type. *)
Definition scopeToken (s : ScopeType) : string :=
  match s with
  | tenant => "tenantdeployment"
  | managementGroup => "managementgroupdeployment"
  | subscription => "subscriptiondeployment"
  | resourceGroup => "deployment"
  end.

(** What a regular expression denotes: the texts it matches, each with its
    captures. *)
Inductive Denotes : regex -> string -> list (option string) -> Prop :=
| DenotesLit (l : string) : Denotes (Lit l) l []
| DenotesPlus (cls : ascii -> bool) (m : string) :
    m <> EmptyString -> allChars cls m = true -> Denotes (Plus cls) m []
| DenotesOpt (r : regex) (m : string) (c : list (option string)) :
    Denotes r m c -> Denotes (Opt r) m c
| DenotesNone (r : regex) :
    Denotes (Opt r) EmptyString (repeat None (groups r))
| DenotesGroup (r : regex) (m : string) (c : list (option string)) :
    Denotes r m c -> Denotes (Group r) m (Some m :: c)
| DenotesSeq (r1 r2 : regex) (m1 m2 : string)
             (c1 c2 : list (option string)) :
    Denotes r1 m1 c1 -> Denotes r2 m2 c2 ->
    Denotes (Seq r1 r2) (m1 ++ m2) (c1 ++ c2)%list.

(** The events of the policy that pass a request on. *)
Definition isNext (e : Policy.Event) : bool :=
  match e with
  | Policy.Next _ => true
  | Policy.Debug _ => false
  end.

(** What the policy writes for a body it logs: nothing for an absent or
    empty body, a line with the document written out again for a body that
    is JSON. A body that is not JSON has no line. *)
Definition bodyLine (parse : string -> option Json) (str : Json -> string)
                    (text : option string) : option (list Policy.Event) :=
  if truthy text then
    match parse (toString text) with
    | Some document => Some [Policy.Debug ("Body: " ++ str document)]
    | None => None
    end
  else Some [].

(* ===================================================================== *)
(** ** Strings, the matcher and scope validation *)
(* ===================================================================== *)

Lemma length_append (a b : string) :
  String.length (a ++ b) = String.length a + String.length b.
Proof. induction a as [|x a IH]; simpl; [reflexivity | now rewrite IH]. Qed.

Lemma substring_prefix (a b : string) :
  substring 0 (String.length a) (a ++ b) = a.
Proof. induction a as [|x a IH]; simpl; [now destruct b | now rewrite IH]. Qed.

Lemma consumed_append (a b : string) : consumed (a ++ b) b = a.
Proof.
  unfold consumed. rewrite length_append.
  replace (String.length a + String.length b - String.length b)
    with (String.length a) by lia.
  apply substring_prefix.
Qed.

Lemma strip_prefix_append (p s : string) : strip_prefix p (p ++ s) = Some s.
Proof.
  induction p as [|c p IH]; simpl; [now destruct s|].
  now rewrite Ascii.eqb_refl.
Qed.

Lemma plus_rests_append cls (a b : string) :
  allChars cls a = true ->
  plus_rests cls (a ++ b) = (plus_rests cls b ++ tails a b)%list.
Proof.
  induction a as [|c a IH]; simpl; intros H.
  - now rewrite app_nil_r.
  - apply andb_prop in H as [Hc Ha]. rewrite Hc, (IH Ha).
    now rewrite <- app_assoc.
Qed.

Lemma tails_head (a b : string) :
  a <> EmptyString -> exists l, tails a b = b :: l.
Proof.
  induction a as [|c a IH]; intros H; [congruence|].
  destruct a as [|d a']; simpl.
  - now exists [].
  - destruct IH as [l Hl]; [discriminate|].
    simpl in Hl. rewrite Hl. now eexists.
Qed.

Lemma lowerChar_letter (c : ascii) :
  isLetter (lowerChar c) = true -> isLetter c = true.
Proof.
  destruct c as [[] [] [] [] [] [] [] []]; vm_compute; congruence.
Qed.

Lemma toLowerCase_letters (s : string) :
  allChars isLetter (toLowerCase s) = true -> allChars isLetter s = true.
Proof.
  induction s as [|c s IH]; simpl; [reflexivity|].
  intros H. apply andb_prop in H as [Hc Hs].
  now rewrite (lowerChar_letter _ Hc), (IH Hs).
Qed.

Lemma toLowerCase_nonempty (s : string) :
  toLowerCase s <> EmptyString -> s <> EmptyString.
Proof. destruct s; simpl; congruence. Qed.

Lemma hd_error_flat_map {A B : Type} (f : A -> list B) (x : A) (l : list A) (y : B) :
  hd_error (f x) = Some y -> hd_error (flat_map f (x :: l)) = Some y.
Proof. simpl. destruct (f x); simpl; congruence. Qed.

Lemma flat_map_skip {A B : Type} (f : A -> list B) (l1 l2 : list A) :
  (forall x, In x l1 -> f x = []) ->
  flat_map f (l1 ++ l2) = flat_map f l2.
Proof.
  intros H. rewrite flat_map_app.
  replace (flat_map f l1) with (@nil B); [reflexivity|].
  induction l1 as [|x l1 IH]; simpl; [reflexivity|].
  rewrite (H x (or_introl eq_refl)). simpl. apply IH.
  intros z Hz. apply H. now right.
Qed.

Lemma firstMatch_Seq r1 r2 s l1 c1 s1 l c2 s2 :
  matches r1 s = (l1 ++ (c1, s1) :: l)%list ->
  (forall m, In m l1 -> matches r2 (snd m) = []) ->
  firstMatch r2 s1 = Some (c2, s2) ->
  firstMatch (Seq r1 r2) s = Some ((c1 ++ c2)%list, s2).
Proof.
  unfold firstMatch. intros H1 Hskip H2. simpl. rewrite H1.
  rewrite flat_map_skip.
  - apply hd_error_flat_map. simpl.
    destruct (matches r2 s1) as [|[c s'] ?]; simpl in *; congruence.
  - intros m Hm. now rewrite (Hskip m Hm).
Qed.

Lemma firstMatch_exec r s c rest :
  firstMatch r s = Some (c, rest) ->
  exec r s = Some (Some (consumed s rest) :: c).
Proof.
  unfold firstMatch. intros H.
  destruct s; simpl; destruct (matches r _) as [|m ?];
    simpl in H; try discriminate; now inversion H.
Qed.

Lemma afterToken_first (post : string) :
  exists rest, firstMatch afterToken (templateSuffix ++ post) = Some ([], rest).
Proof.
  assert (H : exists rest, firstMatch (Opt (Lit "#")) post = Some ([], rest)).
  { unfold firstMatch. cbn [matches groups repeat].
    destruct (strip_prefix "#" post); simpl; now eexists. }
  destruct H as [rest H]. exists rest.
  apply (@firstMatch_Seq (Lit templateSuffix) (Opt (Lit "#")) _
           [] [] post [] [] rest).
  - cbn [matches]. now rewrite strip_prefix_append.
  - intros m [].
  - exact H.
Qed.

(** Giving back fewer than the eight letters of [Template] leaves a text the
    rest of the pattern does not match. *)
Lemma afterToken_backtrack (post r : string) :
  In r (plus_rests isLetter (templateSuffix ++ post)) ->
  matches afterToken r = [].
Proof.
  intros Hr. simpl in Hr.
  repeat (destruct Hr as [<- | Hr]; [reflexivity|]). destruct Hr.
Qed.

Lemma tokenPattern_first (tok post : string) :
  tok <> EmptyString -> allChars isLetter tok = true ->
  exists rest,
    firstMatch tokenPattern (tok ++ templateSuffix ++ post)
    = Some ([Some tok], rest).
Proof.
  intros Hne Hall.
  destruct (afterToken_first post) as [rest Hrest]. exists rest.
  destruct (tails_head (templateSuffix ++ post) Hne) as [l Hl].
  set (s := tok ++ templateSuffix ++ post).
  set (grp := fun m : list (option string) * string =>
                (Some (consumed s (snd m)) :: fst m, snd m)).
  set (mk := fun rest : string => (@nil (option string), rest)).
  replace [Some tok] with ([Some tok] ++ [])%list by reflexivity.
  apply (@firstMatch_Seq (Group (Plus isLetter)) afterToken s
           (map grp (map mk (plus_rests isLetter (templateSuffix ++ post))))
           [Some tok] (templateSuffix ++ post) (map grp (map mk l))).
  - cbn [matches]. fold mk. fold grp. unfold s at 1.
    rewrite (plus_rests_append _ _ _ Hall), Hl, !map_app. cbn [map].
    replace (grp (mk (templateSuffix ++ post)))
      with ([Some tok], templateSuffix ++ post); [reflexivity|].
    unfold grp, mk, s. cbn [fst snd]. now rewrite consumed_append.
  - intros m Hm. apply in_map_iff in Hm as [m' [<- Hm']].
    apply in_map_iff in Hm' as [r [<- Hr]]. cbn [snd grp mk].
    now apply afterToken_backtrack with (post := post).
  - exact Hrest.
Qed.

Lemma schemaRegex_first (version tok post : string) :
  version <> EmptyString -> allChars isVersionChar version = true ->
  tok <> EmptyString -> allChars isLetter tok = true ->
  exists rest,
    firstMatch schemaRegex
      (schemaPrefix ++ version ++ "/" ++ tok ++ templateSuffix ++ post)
    = Some ([Some tok], rest).
Proof.
  intros Hv Hvall Ht Htall.
  destruct (tokenPattern_first post Ht Htall) as [rest Hrest]. exists rest.
  set (y := tok ++ templateSuffix ++ post) in *.
  assert (Hslash : firstMatch (Seq (Lit "/") tokenPattern) ("/" ++ y)
                   = Some ([Some tok], rest)).
  { apply (@firstMatch_Seq (Lit "/") tokenPattern ("/" ++ y)
             [] [] y [] [Some tok] rest); [reflexivity | intros m [] | exact Hrest]. }
  destruct (tails_head ("/" ++ y) Hv) as [l Hl].
  assert (Hversion :
    firstMatch (Seq (Plus isVersionChar) (Seq (Lit "/") tokenPattern))
               (version ++ "/" ++ y) = Some ([Some tok], rest)).
  { apply (@firstMatch_Seq (Plus isVersionChar) (Seq (Lit "/") tokenPattern)
             (version ++ "/" ++ y) [] [] ("/" ++ y)
             (map (fun r => ([], r)) l) [Some tok] rest);
      [ | intros m [] | exact Hslash].
    cbn [matches]. rewrite (plus_rests_append _ _ _ Hvall), Hl.
    reflexivity. }
  apply (@firstMatch_Seq (Lit schemaPrefix)
           (Seq (Plus isVersionChar) (Seq (Lit "/") tokenPattern))
           (schemaPrefix ++ version ++ "/" ++ y) [] [] (version ++ "/" ++ y)
           [] [Some tok] rest); [ | intros m [] | exact Hversion].
  cbn [matches]. now rewrite strip_prefix_append.
Qed.

(** A generated template whose schema URI has the shape the pattern
    describes yields the scope of its token. *)
Lemma getScope_of_token (files : ParsedFiles) (version tok post : string) :
  truthy (generatorName (templateOrEmpty files)) = true ->
  schema (templateOrEmpty files)
    = Some (schemaPrefix ++ version ++ "/" ++ tok ++ templateSuffix ++ post) ->
  version <> EmptyString -> allChars isVersionChar version = true ->
  tok <> EmptyString -> allChars isLetter tok = true ->
  getScope files = scopeOfToken (Some (toLowerCase tok)).
Proof.
  intros Hgen Hschema Hv Hvall Ht Htall.
  destruct (schemaRegex_first post Hv Hvall Ht Htall) as [rest Hrest].
  unfold getScope. rewrite Hgen, Hschema. cbn [negb toString].
  now rewrite (firstMatch_exec _ _ Hrest).
Qed.

Lemma ScopeType_eqb_eq (a b : ScopeType) : ScopeType_eqb a b = true <-> a = b.
Proof. destruct a, b; simpl; split; congruence. Qed.

Lemma validateFileScope_mismatch config files inferred :
  getScope files = Return (Some inferred) ->
  inferred <> scope_type (scope (common config)) ->
  validateFileScope config files
  = Throw (Error ("The target scope " ++ ScopeType_name inferred
                    ++ " does not match the deployment scope "
                    ++ ScopeType_name (scope_type (scope (common config)))
                    ++ ".")).
Proof.
  intros Hs Hne. unfold validateFileScope. rewrite Hs.
  destruct (ScopeType_eqb _ _) eqn:E; [|reflexivity].
  now apply ScopeType_eqb_eq in E.
Qed.

(** C6. A generated template whose [$schema] is
    [.../schemas/<version>/tenantDeploymentTemplate.json], whatever the case
    of the letters of the scope token, has the inferred scope [tenant]; and
    whenever the inferred scope differs from the configured scope type,
    [validateFileScope] throws the mismatch error, whose message names the
    inferred scope and then the configured one. *)
Theorem C6_tenant_schema_and_scope_mismatch
    (config : ActionConfig) (files : ParsedFiles)
    (version tok post : string) :
  truthy (generatorName (templateOrEmpty files)) = true ->
  schema (templateOrEmpty files)
    = Some ("https://schema.management.azure.com/schemas/" ++ version ++ "/"
              ++ tok ++ "Template.json" ++ post) ->
  version <> EmptyString -> allChars isVersionChar version = true ->
  toLowerCase tok = "tenantdeployment" ->
  getScope files = Return (Some tenant)
  /\ (forall (config' : ActionConfig) (files' : ParsedFiles) (inferred : ScopeType),
        getScope files' = Return (Some inferred) ->
        inferred <> scope_type (scope (common config')) ->
        validateFileScope config' files'
        = Throw (Error ("The target scope " ++ ScopeType_name inferred
                          ++ " does not match the deployment scope "
                          ++ ScopeType_name (scope_type (scope (common config')))
                          ++ ".")))
  /\ (scope_type (scope (common config)) <> tenant ->
      validateFileScope config files
      = Throw (Error ("The target scope tenant does not match the deployment scope "
                        ++ ScopeType_name (scope_type (scope (common config)))
                        ++ "."))).
Proof.
  intros Hgen Hschema Hv Hvall Htok.
  assert (Hscope : getScope files = Return (Some tenant)).
  { rewrite (@getScope_of_token files version tok post); auto.
    - now rewrite Htok.
    - apply toLowerCase_nonempty. now rewrite Htok.
    - apply toLowerCase_letters. now rewrite Htok. }
  split; [exact Hscope|]. split.
  - intros config' files' inferred. apply validateFileScope_mismatch.
  - intros Hne.
    rewrite (@validateFileScope_mismatch config files tenant); auto.
Qed.

(* ===================================================================== *)
(** ** Scope inference, both ways *)
(* ===================================================================== *)

Lemma append_assoc (a b c : string) : (a ++ b) ++ c = a ++ (b ++ c).
Proof. induction a as [|x a IH]; cbn; [reflexivity | now rewrite IH]. Qed.

Lemma strip_prefix_sound (p s rest : string) :
  strip_prefix p s = Some rest -> s = p ++ rest.
Proof.
  revert s. induction p as [|c p IH]; intros s H; cbn in H.
  - now destruct s; injection H as <-.
  - destruct s as [|d s]; [discriminate|].
    destruct (Ascii.eqb c d) eqn:E; [|discriminate].
    apply Ascii.eqb_eq in E as <-. cbn. now rewrite <- (IH s H).
Qed.

Lemma plus_rests_sound cls (s rest : string) :
  In rest (plus_rests cls s) ->
  exists m, m <> EmptyString /\ allChars cls m = true /\ s = m ++ rest.
Proof.
  induction s as [|c s IH]; cbn; [intros []|].
  destruct (cls c) eqn:E; [|intros []].
  intros H. apply in_app_or in H as [H | [<- | []]].
  - destruct (IH H) as [m [_ [Hm ->]]]. exists (String c m).
    repeat split; [discriminate | cbn; now rewrite E, Hm].
  - exists (String c EmptyString).
    repeat split; [discriminate | cbn; now rewrite E].
Qed.

(** Whatever the matcher reports is in the language of the expression. *)
Lemma matches_sound (r : regex) :
  forall s c rest,
    In (c, rest) (matches r s) ->
    exists m, s = m ++ rest /\ Denotes r m c.
Proof.
  induction r as [l | cls | r IH | r IH | r1 IH1 r2 IH2];
    intros s c rest H; cbn [matches] in H.
  - destruct (strip_prefix l s) as [rest'|] eqn:E; [|destruct H].
    destruct H as [H | []]. injection H as <- <-.
    exists l. split; [now apply strip_prefix_sound | constructor].
  - apply in_map_iff in H as [rest' [H Hin]]. injection H as <- <-.
    destruct (plus_rests_sound _ _ _ Hin) as [m [Hne [Hall ->]]].
    exists m. split; [reflexivity | now constructor].
  - apply in_app_or in H as [H | [H | []]].
    + destruct (IH _ _ _ H) as [m [-> Hd]]. exists m.
      split; [reflexivity | now constructor].
    + injection H as <- <-. exists EmptyString.
      split; [reflexivity | apply DenotesNone].
  - apply in_map_iff in H as [[c' rest'] [H Hin]]. cbn in H.
    injection H as <- <-.
    destruct (IH _ _ _ Hin) as [m [-> Hd]]. exists m.
    rewrite consumed_append. split; [reflexivity | now constructor].
  - apply in_flat_map in H as [[c1 s1] [H1 H]]. cbn [fst snd] in H.
    apply in_map_iff in H as [[c2 s2] [H H2]]. cbn in H.
    injection H as <- <-.
    destruct (IH1 _ _ _ H1) as [m1 [-> Hd1]].
    destruct (IH2 _ _ _ H2) as [m2 [-> Hd2]].
    exists (m1 ++ m2). split; [now rewrite append_assoc | now constructor].
Qed.

Lemma consumed_split (s m rest : string) :
  s = m ++ rest -> consumed s rest = m.
Proof. intros ->. apply consumed_append. Qed.

Lemma exec_sound (r : regex) (s : string) (res : list (option string)) :
  exec r s = Some res ->
  exists pre m rest c,
    s = pre ++ m ++ rest /\ res = Some m :: c /\ Denotes r m c.
Proof.
  assert (Hhead : forall s c rest l,
            matches r s = (c, rest) :: l ->
            exists m, s = m ++ rest
                      /\ Some (consumed s rest) :: c = Some m :: c
                      /\ Denotes r m c).
  { intros s0 c rest l E.
    destruct (@matches_sound r s0 c rest) as [m [Hs Hd]];
      [rewrite E; now left|].
    exists m. now rewrite (@consumed_split _ _ _ Hs). }
  induction s as [|x s IH]; cbn [exec].
  - destruct (matches r EmptyString) as [|[c rest] l] eqn:E; [discriminate|].
    intros H. injection H as <-.
    destruct (Hhead _ _ _ _ E) as [m [Hs [Hc Hd]]].
    now exists EmptyString, m, rest, c.
  - destruct (matches r (String x s)) as [|[c rest] l] eqn:E.
    + intros H. destruct (IH H) as [pre [m [rest [c [-> [-> Hd]]]]]].
      now exists (String x pre), m, rest, c.
    + intros H. injection H as <-.
      destruct (Hhead _ _ _ _ E) as [m [Hs [Hc Hd]]].
      now exists EmptyString, m, rest, c.
Qed.

(** The language of the schema pattern. *)
Lemma schemaRegex_denotes (m : string) (c : list (option string)) :
  Denotes schemaRegex m c ->
  exists version tok hash,
    m = schemaPrefix ++ version ++ "/" ++ tok ++ templateSuffix ++ hash
    /\ c = [Some tok]
    /\ version <> EmptyString /\ allChars isVersionChar version = true
    /\ tok <> EmptyString /\ allChars isLetter tok = true.
Proof.
  unfold schemaRegex. intros H.
  inversion H as [| | | | |? ? m1 m2' ? ? H1 H2]; subst; clear H.
  inversion H1; subst; clear H1.
  inversion H2 as [| | | | |? ? v m3' ? ? Hv H3]; subst; clear H2.
  inversion Hv; subst; clear Hv.
  inversion H3 as [| | | | |? ? sl m4' ? ? Hsl H4]; subst; clear H3.
  inversion Hsl; subst; clear Hsl.
  inversion H4 as [| | | | |? ? tk m5' ? ? Htk H5]; subst; clear H4.
  inversion Htk as [| | | |? ? ? Hplus|]; subst; clear Htk.
  inversion Hplus; subst; clear Hplus.
  inversion H5 as [| | | | |? ? tp hs ? ? Htp H6]; subst; clear H5.
  inversion Htp; subst; clear Htp.
  exists v, tk, hs. repeat split; auto.
  inversion H6 as [| |? ? ? Hh| | |]; subst; [|reflexivity].
  now inversion Hh.
Qed.

Lemma scopeOfToken_inv (t : string) (s : ScopeType) :
  scopeOfToken (Some t) = Return (Some s) -> t = scopeToken s.
Proof.
  unfold scopeOfToken.
  destruct (t =? "tenantdeployment") eqn:E1;
    [apply String.eqb_eq in E1; intros H; now injection H as <-|].
  destruct (t =? "managementgroupdeployment") eqn:E2;
    [apply String.eqb_eq in E2; intros H; now injection H as <-|].
  destruct (t =? "subscriptiondeployment") eqn:E3;
    [apply String.eqb_eq in E3; intros H; now injection H as <-|].
  destruct (t =? "deployment") eqn:E4;
    [apply String.eqb_eq in E4; intros H; now injection H as <-|].
  discriminate.
Qed.

(** X5. Scope validation passes exactly when no scope is inferred from the
    template or the inferred scope is the configured one. *)
Theorem X5_scope_validation_passes_iff
    (config : ActionConfig) (files : ParsedFiles) :
  validateFileScope config files = Return tt
  <-> getScope files = Return None
      \/ getScope files = Return (Some (scope_type (scope (common config)))).
Proof.
  unfold validateFileScope.
  destruct (getScope files) as [[inferred|]|e].
  - destruct (ScopeType_eqb inferred _) eqn:E; cbn [negb].
    + apply ScopeType_eqb_eq in E as ->. split; auto.
    + split; [discriminate|].
      intros [H | H]; [discriminate|]. injection H as ->.
      destruct (scope_type _); discriminate.
  - split; auto.
  - split; [discriminate | intros [H | H]; discriminate].
Qed.

(** X6. A generated template whose [$schema] is the schema prefix, a
    version, a slash, a scope token and [Template.json] has the scope of
    the token, for each of the four tokens and whatever the case of its
    letters: [deployment] is the resource-group scope. Scope validation
    then passes for a configuration of that scope. *)
Theorem X6_scope_of_each_token
    (config : ActionConfig) (files : ParsedFiles)
    (version tok post : string) (s : ScopeType) :
  truthy (generatorName (templateOrEmpty files)) = true ->
  schema (templateOrEmpty files)
    = Some ("https://schema.management.azure.com/schemas/" ++ version ++ "/"
              ++ tok ++ "Template.json" ++ post) ->
  version <> EmptyString -> allChars isVersionChar version = true ->
  toLowerCase tok = scopeToken s ->
  getScope files = Return (Some s)
  /\ (scope_type (scope (common config)) = s ->
      validateFileScope config files = Return tt).
Proof.
  intros Hgen Hschema Hv Hvall Htok.
  assert (Hscope : getScope files = Return (Some s)).
  { rewrite (@getScope_of_token files version tok post); auto.
    - rewrite Htok. now destruct s.
    - apply toLowerCase_nonempty. rewrite Htok. now destruct s.
    - apply toLowerCase_letters. rewrite Htok. now destruct s. }
  split; [exact Hscope|]. intros Hs.
  unfold validateFileScope. rewrite Hscope.
  now rewrite (proj2 (ScopeType_eqb_eq _ _) (eq_sym Hs)).
Qed.

(** X7. A generated template without [$schema], or whose [$schema] has no
    match of the pattern, fails scope validation with the inference error
    for every configuration. *)
Theorem X7_generated_template_without_schema_match
    (config : ActionConfig) (files : ParsedFiles) :
  truthy (generatorName (templateOrEmpty files)) = true ->
  schema (templateOrEmpty files) = None
  \/ (exists uri, schema (templateOrEmpty files) = Some uri
                  /\ exec schemaRegex uri = None) ->
  validateFileScope config files
  = Throw (Error "Failed to determine deployment scope from Bicep file.").
Proof.
  intros Hgen H. unfold validateFileScope, getScope. rewrite Hgen.
  destruct H as [-> | [uri [-> He]]]; [reflexivity|].
  cbn [negb toString]. now rewrite He.
Qed.

(** X8. A scope is inferred only from a generated template whose [$schema]
    holds, somewhere in it, the schema prefix, a version of letters, digits
    and dashes, a slash, a token of letters and [Template.json]; the scope
    is the one whose token that is, up to case. *)
Theorem X8_inferred_scope_comes_from_the_schema
    (files : ParsedFiles) (s : ScopeType) :
  getScope files = Return (Some s) ->
  truthy (generatorName (templateOrEmpty files)) = true
  /\ exists pre version tok post,
       schema (templateOrEmpty files)
       = Some (pre ++ "https://schema.management.azure.com/schemas/"
                 ++ version ++ "/" ++ tok ++ "Template.json" ++ post)
       /\ version <> EmptyString /\ allChars isVersionChar version = true
       /\ tok <> EmptyString /\ allChars isLetter tok = true
       /\ toLowerCase tok = scopeToken s.
Proof.
  unfold getScope. intros H.
  destruct (truthy (generatorName (templateOrEmpty files))); cbn [negb] in H;
    [|discriminate].
  split; [reflexivity|].
  destruct (schema (templateOrEmpty files)) as [uri|];
    [|vm_compute in H; discriminate].
  cbn [toString] in H.
  destruct (exec schemaRegex uri) as [res|] eqn:He; [|discriminate].
  destruct (exec_sound _ _ He) as [pre [m [rest [c [-> [-> Hd]]]]]].
  destruct (schemaRegex_denotes Hd)
    as [version [tok [hash [-> [-> [Hv [Hvall [Ht Htall]]]]]]]].
  cbn [scopeMatch nth] in H. apply scopeOfToken_inv in H.
  exists pre, version, tok, (hash ++ rest). repeat split; auto.
  unfold schemaPrefix, templateSuffix.
  now rewrite !append_assoc.
Qed.

Lemma remoteCalls_app (l1 l2 : list Event) :
  remoteCalls (l1 ++ l2) = (remoteCalls l1 ++ remoteCalls l2)%list.
Proof. apply flat_map_app. Qed.

Lemma forOf_outcome {A : Type} (l : list A) (body : A -> Action unit) :
  (forall x, outcome (body x) = Return tt) ->
  outcome (forOf l body) = Return tt.
Proof.
  intros H. induction l as [|x l IH]; simpl; [reflexivity|].
  rewrite H. simpl. exact IH.
Qed.

Lemma setCreateOutputs_outcome lower config outs :
  outcome (setCreateOutputs lower config outs) = Return tt.
Proof.
  destruct outs as [outs|]; simpl; [|reflexivity].
  apply forOf_outcome. intros [k v]. simpl.
  now destruct (isMasked lower config k).
Qed.

Lemma setCreateOutputs_remoteCalls lower config outs :
  remoteCalls (trace (setCreateOutputs lower config outs)) = [].
Proof.
  destruct outs as [outs|]; simpl; [|reflexivity].
  induction outs as [|[k v] outs IH]; simpl; [reflexivity|].
  destruct (isMasked lower config k); simpl; exact IH.
Qed.

Lemma bind_ret {A B : Type} (a : A) (f : A -> Action B) :
  bind (ret a) f = f a.
Proof. cbn. now destruct (f a). Qed.

Lemma bind_lift {A B : Type} (a : A) (f : A -> Action B) :
  bind (lift (Return a)) f = f a.
Proof. apply bind_ret. Qed.

Section Runs.

Variable svc : Service.

Lemma deploymentCreate_run config files :
  Run svc (deploymentCreate svc config files) (reach (deployment config)).
Proof.
  unfold deploymentCreate, reach, beginCreateOrUpdate.
  destruct (scope (d_common config));
    [by_location svc (d_common config) @bind_ret .. | called svc].
Qed.

Lemma deploymentValidate_run config files :
  Run svc (deploymentValidate svc config files) (reach (deployment config)).
Proof.
  unfold deploymentValidate, reach, beginValidate.
  destruct (scope (d_common config));
    [by_location svc (d_common config) @bind_ret .. | called svc].
Qed.

Lemma deploymentWhatIf_run config files :
  Run svc (deploymentWhatIf svc config files) (reach (deployment config)).
Proof.
  unfold deploymentWhatIf, reach, beginWhatIf.
  destruct (scope (d_common config));
    [by_location svc (d_common config) @bind_ret .. | called svc].
Qed.

Lemma stackCreate_run config files :
  s_operation config = sCreate ->
  Run svc (stackCreate svc config files) (reach (deploymentStack config)).
Proof.
  intros Hop. unfold stackCreate, reach, stacksBeginCreateOrUpdate.
  rewrite Hop.
  destruct (scope (s_common config));
    [now eapply RunLacksCase | by_location svc (s_common config) @bind_ret .. | called svc].
Qed.

Lemma stackValidate_run config files :
  s_operation config = sValidate ->
  Run svc (stackValidate svc config files) (reach (deploymentStack config)).
Proof.
  intros Hop. unfold stackValidate, reach, stacksBeginValidateStack.
  rewrite Hop.
  destruct (scope (s_common config));
    [now eapply RunLacksCase | by_location svc (s_common config) @bind_ret .. | called svc].
Qed.

Lemma stackDelete_run config :
  s_operation config = sDelete ->
  Run svc (stackDelete svc config) (reach (deploymentStack config)).
Proof.
  intros Hop. unfold stackDelete, reach, stacksBeginDelete. rewrite Hop.
  destruct (scope (s_common config));
    [now eapply RunLacksCase | called svc ..].
Qed.

End Runs.

Arguments setCreateOutputs : simpl never.
Arguments toString : simpl never.
Arguments truthy : simpl never.
Arguments headers_get : simpl never.
Arguments ErrorResponse_toJson : simpl never.
Arguments nullish : simpl never.
Arguments getDeployment : simpl never.
Arguments getStack : simpl never.
Arguments getDeploymentClient : simpl never.
Arguments getStacksClient : simpl never.
Arguments getStackDeletionOptions : simpl never.
Arguments String.append : simpl never.

Lemma trace_bind {A B : Type} (m : Action A) (f : A -> Action B) :
  trace (bind m f)
  = (trace m ++ match outcome m with
                | Return a => trace (f a)
                | Throw _ => []
                end)%list.
Proof. cbn. destruct (outcome m); cbn; [reflexivity | now rewrite app_nil_r]. Qed.

Lemma trace_catch {A : Type} (m : Action A) (h : Exn -> Action A) :
  trace (catch m h)
  = (trace m ++ match outcome m with
                | Return _ => []
                | Throw e => trace (h e)
                end)%list.
Proof. cbn. destruct (outcome m); cbn; [now rewrite app_nil_r | reflexivity]. Qed.

Lemma remoteCalls_bind {A B : Type} (m : Action A) (f : A -> Action B) :
  (forall a, remoteCalls (trace (f a)) = []) ->
  remoteCalls (trace (bind m f)) = remoteCalls (trace m).
Proof.
  intros H. rewrite trace_bind, remoteCalls_app.
  destruct (outcome m); [rewrite H|]; apply app_nil_r.
Qed.

Lemma remoteCalls_catch {A : Type} (m : Action A) (h : Exn -> Action A) :
  (forall e, remoteCalls (trace (h e)) = []) ->
  remoteCalls (trace (catch m h)) = remoteCalls (trace m).
Proof.
  intros H. rewrite trace_catch, remoteCalls_app.
  destruct (outcome m); [|rewrite H]; apply app_nil_r.
Qed.

Lemma remoteCalls_In (c : RemoteCall) (l : list Event) :
  In (Remote c) l <-> In c (remoteCalls l).
Proof.
  unfold remoteCalls. rewrite in_flat_map. split.
  - intros H. exists (Remote c). split; [exact H | now left].
  - intros [e [He Hc]]. destruct e; simpl in Hc; try tauto.
    destruct Hc as [<- | []]. exact He.
Qed.

Section Failure.

Variable parse : string -> option Json.
Variable str : Json -> string.

Lemma onFailure_remoteCalls (e : Exn) :
  remoteCalls (trace (onFailure parse str e)) = [].
Proof.
  unfold onFailure, logError, setFailed, emit.
  destruct e; cbn; try reflexivity.
  repeat (break_match; cbn); reflexivity.
Qed.

End Failure.

Section Calls.

Variable svc : Service.
Variable parse : string -> option Json.
Variable str : Json -> string.
Variable fmt : WhatIfOperationResult -> string -> string.
Variable lower : string -> string.

Lemma tryWithErrorHandling_remoteCalls {T : Type} (action : Action T)
    (onError : ErrorResponse -> Action unit) :
  (forall err, remoteCalls (trace (onError err)) = []) ->
  remoteCalls (trace (tryWithErrorHandling action onError))
  = remoteCalls (trace action).
Proof.
  intros H. unfold tryWithErrorHandling.
  rewrite remoteCalls_catch.
  - now apply remoteCalls_bind.
  - intros [| | | r |]; try reflexivity.
    rewrite remoteCalls_bind; [reflexivity|]. intros [].
    destruct (details r) as [d|]; [|reflexivity].
    destruct (error d) as [err|]; [|reflexivity].
    rewrite remoteCalls_bind; [apply H | reflexivity].
Qed.

Lemma execute_remoteCalls config files :
  remoteCalls (trace (execute svc parse str fmt lower config files))
  = match validateFileScope config files with
    | Return _ => operationCalls svc config files
    | Throw _ => []
    end.
Proof.
  unfold execute.
  rewrite remoteCalls_catch by apply onFailure_remoteCalls.
  unfold dispatch.
  destruct (validateFileScope config files) as [[]|e]; [|reflexivity].
  rewrite bind_lift. unfold operationCalls.
  destruct config as [c|c];
    [destruct (d_operation c) | destruct (s_operation c)];
    try reflexivity;
    try (rewrite remoteCalls_bind by reflexivity;
         rewrite tryWithErrorHandling_remoteCalls by reflexivity);
    try reflexivity.
  - apply remoteCalls_bind. intros a. apply setCreateOutputs_remoteCalls.
  - now apply remoteCalls_bind.
  - apply remoteCalls_bind. intros a. apply setCreateOutputs_remoteCalls.
Qed.

Lemma Run_remoteCalls {A : Type} (m : Action A) (r : Reach) :
  Run svc m r ->
  match r with
  | CallsRemote =>
      exists c, trace m = [Remote c] /\ discard (outcome m) = answer svc c
  | _ => trace m = []
  end.
Proof. intros [c Ht Ho | -> | a ->]; [now exists c | reflexivity ..]. Qed.

Lemma operationCalls_reach config files :
  match reach config with
  | CallsRemote => exists c, operationCalls svc config files = [c]
  | _ => operationCalls svc config files = []
  end.
Proof.
  assert (H : forall (A : Type) (m : Action A) r, Run svc m r ->
            match r with
            | CallsRemote => exists c, remoteCalls (trace m) = [c]
            | _ => remoteCalls (trace m) = []
            end).
  { intros A m r R. apply Run_remoteCalls in R.
    destruct r; [destruct R as [c [-> _]]; now exists c | now rewrite R ..]. }
  unfold operationCalls.
  destruct config as [c|c];
    [destruct (d_operation c) eqn:Hop | destruct (s_operation c) eqn:Hop];
    apply H.
  - apply deploymentCreate_run.
  - apply deploymentValidate_run.
  - apply deploymentWhatIf_run.
  - now apply stackCreate_run.
  - now apply stackValidate_run.
  - now apply stackDelete_run.
Qed.

End Calls.

Lemma reach_CallsRemote config :
  reach config = CallsRemote
  <-> hasCase config = true
      /\ (requiresLocation config = true ->
          locationSet (common config) = true).
Proof.
  unfold reach, hasCase, requiresLocation, reachWithLocation.
  destruct config as [c|c]; cbn [common];
    [destruct (scope (d_common c)), (locationSet (d_common c))
    |destruct (scope (s_common c)), (s_operation c),
       (locationSet (s_common c))];
    split; try tauto; try discriminate; intros [H1 H2];
    try discriminate; specialize (H2 eq_refl); discriminate.
Qed.

Lemma reach_LacksLocation config :
  reach config = LacksLocation
  <-> requiresLocation config = true /\ locationSet (common config) = false.
Proof.
  unfold reach, requiresLocation, reachWithLocation.
  destruct config as [c|c]; cbn [common];
    [destruct (scope (d_common c)), (locationSet (d_common c))
    |destruct (scope (s_common c)), (s_operation c),
       (locationSet (s_common c))];
    split; try tauto; try discriminate; intros [H1 H2]; discriminate.
Qed.

(** C2. For every configuration and parsed files that pass scope
    validation, [execute] invokes at most one remote operation; it invokes
    exactly one when the operation has a case for the scope and the location
    it asks for is set, and none otherwise. *)
Theorem C2_at_most_one_remote_operation
    (svc : Service) (parse : string -> option Json) (str : Json -> string)
    (fmt : WhatIfOperationResult -> string -> string)
    (lower : string -> string)
    (config : ActionConfig) (files : ParsedFiles) :
  validateFileScope config files = Return tt ->
  let calls := remoteCalls (trace (execute svc parse str fmt lower config files)) in
  List.length calls <= 1
  /\ (List.length calls = 1
      <-> hasCase config = true
          /\ (requiresLocation config = true ->
              locationSet (common config) = true)).
Proof.
  intros Hv calls. subst calls.
  rewrite execute_remoteCalls, Hv, <- reach_CallsRemote.
  pose proof (operationCalls_reach svc config files) as H.
  destruct (reach config).
  - destruct H as [c ->]. simpl. split; [lia | tauto].
  - rewrite H. simpl. split; [lia|]. split; discriminate.
  - rewrite H. simpl. split; [lia|]. split; discriminate.
Qed.

Section Outcomes.

Variable svc : Service.
Variable parse : string -> option Json.
Variable str : Json -> string.
Variable fmt : WhatIfOperationResult -> string -> string.
Variable lower : string -> string.

Lemma Run_LacksLocation {A : Type} (m : Action A) :
  Run svc m LacksLocation -> m = raise (Error "Location is required").
Proof. intros R. now inversion R. Qed.

Lemma execute_LacksLocation config files :
  validateFileScope config files = Return tt ->
  reach config = LacksLocation ->
  execute svc parse str fmt lower config files
  = mkAction (Throw (Error "Location is required"))
             [SetFailed "Operation failed"].
Proof.
  intros Hv Hr. unfold execute, dispatch. rewrite Hv, bind_lift.
  destruct config as [c|c];
    [destruct (d_operation c) eqn:Hop | destruct (s_operation c) eqn:Hop].
  - pose proof (deploymentCreate_run svc c files) as R. rewrite Hr in R.
    now rewrite (Run_LacksLocation R).
  - pose proof (deploymentValidate_run svc c files) as R. rewrite Hr in R.
    now rewrite (Run_LacksLocation R).
  - pose proof (deploymentWhatIf_run svc c files) as R. rewrite Hr in R.
    now rewrite (Run_LacksLocation R).
  - pose proof (stackCreate_run svc c files Hop) as R. rewrite Hr in R.
    now rewrite (Run_LacksLocation R).
  - pose proof (stackValidate_run svc c files Hop) as R. rewrite Hr in R.
    now rewrite (Run_LacksLocation R).
  - pose proof (stackDelete_run svc c Hop) as R. rewrite Hr in R.
    now rewrite (Run_LacksLocation R).
Qed.

End Outcomes.

(** C5. With scope validation passed and the location unset (or empty),
    every deployment operation at tenant, management-group or subscription
    scope, and creating or validating a stack at subscription or
    management-group scope, throws [Location is required] before any remote
    operation is invoked. No other operation asks for a location: at
    resource-group scope, and for deleting a stack, the remote operation is
    invoked whether or not a location is set. *)
Theorem C5_location_is_required_before_the_remote_call
    (svc : Service) (parse : string -> option Json) (str : Json -> string)
    (fmt : WhatIfOperationResult -> string -> string)
    (lower : string -> string)
    (config : ActionConfig) (files : ParsedFiles) :
  validateFileScope config files = Return tt ->
  (requiresLocation config = true ->
   locationSet (common config) = false ->
   execute svc parse str fmt lower config files
   = mkAction (Throw (Error "Location is required"))
              [SetFailed "Operation failed"])
  /\ (scope_type (scope (common config)) = resourceGroup ->
      requiresLocation config = false
      /\ exists c,
           remoteCalls (trace (execute svc parse str fmt lower config files)) = [c])
  /\ (forall c, config = deploymentStack c -> s_operation c = sDelete ->
      requiresLocation config = false
      /\ (hasCase config = true ->
          exists call,
            remoteCalls (trace (execute svc parse str fmt lower config files))
            = [call])).
Proof.
  intros Hv.
  assert (Hcalls : requiresLocation config = false -> hasCase config = true ->
            exists c,
              remoteCalls (trace (execute svc parse str fmt lower config files))
              = [c]).
  { intros Hreq Hcase. rewrite execute_remoteCalls, Hv.
    pose proof (operationCalls_reach svc config files) as H.
    replace (reach config) with CallsRemote in H; [exact H|].
    symmetry. apply reach_CallsRemote. split; [exact Hcase | congruence]. }
  split; [|split].
  - intros Hreq Hloc. apply execute_LacksLocation; [exact Hv|].
    now apply reach_LacksLocation.
  - intros Hrg.
    assert (requiresLocation config = false /\ hasCase config = true) as [H1 H2].
    { unfold requiresLocation, hasCase.
      destruct config as [c|c]; cbn [common] in Hrg;
        [destruct (scope (d_common c)) | destruct (scope (s_common c))];
        try discriminate; auto. }
    split; [exact H1 | now apply Hcalls].
  - intros c -> Hop.
    assert (requiresLocation (deploymentStack c) = false) as H1.
    { unfold requiresLocation. rewrite Hop.
      now destruct (scope (s_common c)). }
    split; [exact H1 | now apply Hcalls].
Qed.

(** From the run of an operation and a remote call seen in the trace: the
    call is the one of the run, and throws what the service throws. *)
Lemma Run_thrown {A : Type} svc (m : Action A) (r : Reach) (c : RemoteCall)
    (e : Exn) :
  Run svc m r -> In c (remoteCalls (trace m)) -> answer svc c = Throw e ->
  m = mkAction (Throw e) [Remote c].
Proof.
  intros R Hin Hans. destruct R as [c' Ht Ho | -> | a ->];
    [| destruct Hin | destruct Hin].
  rewrite Ht in Hin. destruct Hin as [<- | []].
  destruct m as [o t]. cbn in Ht, Ho. subst t.
  rewrite Hans in Ho. destruct o; cbn in Ho; [discriminate|].
  now injection Ho as ->.
Qed.

(** C3. When the remote call of a validate (or create) operation throws a
    [RestError] whose details carry a structured error, [execute] logs the
    correlation id and the structured error, marks the run failed with
    [Validation failed] (or [Create failed]), and returns: the exception is
    not raised again. *)
Theorem C3_structured_service_error_is_reported
    (svc : Service) (parse : string -> option Json) (str : Json -> string)
    (fmt : WhatIfOperationResult -> string -> string)
    (lower : string -> string)
    (config : ActionConfig) (files : ParsedFiles)
    (c : RemoteCall) (r : RestError) (cloudError : CloudError)
    (err : ErrorResponse) (msg : string) :
  failureMessage config = Some msg ->
  In (Remote c) (trace (execute svc parse str fmt lower config files)) ->
  answer svc c = Throw (Rest r) ->
  details r = Some cloudError ->
  error cloudError = Some err ->
  execute svc parse str fmt lower config files
  = mkAction (Return tt)
      [Remote c;
       LogError ("Request failed. CorrelationId: "
                   ++ toString (correlationIdOf r));
       LogError (str (ErrorResponse_toJson err));
       SetFailed msg].
Proof.
  intros Hmsg Hin Hans Hd He.
  apply remoteCalls_In in Hin. rewrite execute_remoteCalls in Hin.
  destruct (validateFileScope config files) as [[]|] eqn:Hv; [|destruct Hin].
  unfold operationCalls in Hin. unfold execute, dispatch.
  rewrite Hv, bind_lift. unfold failureMessage in Hmsg.
  destruct config as [dc|sc];
    [destruct (d_operation dc) eqn:Hop | destruct (s_operation sc) eqn:Hop];
    try discriminate; injection Hmsg as <-.
  - rewrite (Run_thrown c (deploymentCreate_run svc dc files) Hin Hans).
    unfold tryWithErrorHandling. cbn. rewrite Hd, He. reflexivity.
  - rewrite (Run_thrown c (deploymentValidate_run svc dc files) Hin Hans).
    unfold tryWithErrorHandling. cbn. rewrite Hd, He. reflexivity.
  - rewrite (Run_thrown c (stackCreate_run svc sc files Hop) Hin Hans).
    unfold tryWithErrorHandling. cbn. rewrite Hd, He. reflexivity.
  - rewrite (Run_thrown c (stackValidate_run svc sc files Hop) Hin Hans).
    unfold tryWithErrorHandling. cbn. rewrite Hd, He. reflexivity.
Qed.

(** Scope validation throws plain errors only. *)
Lemma validateFileScope_throws config files e :
  validateFileScope config files = Throw e ->
  exists msg, e = Error msg \/ e = TypeError msg.
Proof.
  unfold validateFileScope, getScope, scopeMatch, scopeOfToken. intros H.
  repeat (break_match_in H; try discriminate);
    injection H as <-; eexists; eauto.
Qed.

Section Reraise.

Variable svc : Service.
Variable parse : string -> option Json.
Variable str : Json -> string.
Variable fmt : WhatIfOperationResult -> string -> string.
Variable lower : string -> string.

Lemma onFailure_writesOutput (e : Exn) :
  filter writesOutput (trace (onFailure parse str e)) = [].
Proof.
  unfold onFailure, logError, setFailed, emit.
  destruct e; cbn; try reflexivity.
  repeat (break_match; cbn); reflexivity.
Qed.

(** X16. A failed scope validation reaches the handler at the top, which
    marks the run failed with [Operation failed] and throws the error again:
    no remote operation is invoked and nothing else is logged. *)
Lemma execute_reraises_validation config files e :
  validateFileScope config files = Throw e ->
  execute svc parse str fmt lower config files
  = mkAction (Throw e) [SetFailed "Operation failed"].
Proof.
  intros Hv. unfold execute, dispatch. rewrite Hv. cbn.
  destruct (validateFileScope_throws _ _ Hv) as [msg [-> | ->]];
    reflexivity.
Qed.

(** X17. An error of the remote call that is no [RestError] reaches the
    handler at the top for every operation: the run is marked failed with
    [Operation failed] and the error is thrown again, with nothing logged. *)
Lemma execute_reraises_unexpected config files c e :
  In (Remote c) (trace (execute svc parse str fmt lower config files)) ->
  answer svc c = Throw e ->
  (forall r, e <> Rest r) ->
  execute svc parse str fmt lower config files
  = mkAction (Throw e) [Remote c; SetFailed "Operation failed"].
Proof.
  intros Hin Hans Hne.
  apply remoteCalls_In in Hin. rewrite execute_remoteCalls in Hin.
  destruct (validateFileScope config files) as [[]|] eqn:Hv; [|destruct Hin].
  unfold operationCalls in Hin. unfold execute, dispatch.
  rewrite Hv, bind_lift.
  destruct config as [dc|sc];
    [destruct (d_operation dc) eqn:Hop | destruct (s_operation sc) eqn:Hop].
  - rewrite (Run_thrown c (deploymentCreate_run svc dc files) Hin Hans).
    destruct e; try reflexivity. now destruct (Hne e).
  - rewrite (Run_thrown c (deploymentValidate_run svc dc files) Hin Hans).
    destruct e; try reflexivity. now destruct (Hne e).
  - rewrite (Run_thrown c (deploymentWhatIf_run svc dc files) Hin Hans).
    destruct e; try reflexivity. now destruct (Hne e).
  - rewrite (Run_thrown c (stackCreate_run svc sc files Hop) Hin Hans).
    destruct e; try reflexivity. now destruct (Hne e).
  - rewrite (Run_thrown c (stackValidate_run svc sc files Hop) Hin Hans).
    destruct e; try reflexivity. now destruct (Hne e).
  - rewrite (Run_thrown c (stackDelete_run svc sc Hop) Hin Hans).
    destruct e; try reflexivity. now destruct (Hne e).
Qed.

(** X18. A [RestError] of a what-if or delete call is never turned into a
    domain failure, structured error or not: with a response body that is
    JSON it reaches the handler at the top, which logs the correlation id
    and the body, marks the run failed with [Operation failed] and throws
    the error again. *)
Lemma execute_reraises_transport config files c r p body :
  failureMessage config = None ->
  In (Remote c) (trace (execute svc parse str fmt lower config files)) ->
  answer svc c = Throw (Rest r) ->
  response r = Some p ->
  truthy (bodyAsText p) = true ->
  parse (toString (bodyAsText p)) = Some body ->
  execute svc parse str fmt lower config files
  = mkAction (Throw (Rest r))
      [Remote c;
       LogError ("Request failed. CorrelationId: "
                   ++ toString (headers_get (headers p) correlationHeader));
       LogError (str body);
       SetFailed "Operation failed"].
Proof.
  intros Hmsg Hin Hans Hp Hb Hparse.
  apply remoteCalls_In in Hin. rewrite execute_remoteCalls in Hin.
  destruct (validateFileScope config files) as [[]|] eqn:Hv; [|destruct Hin].
  unfold operationCalls in Hin. unfold execute, dispatch.
  rewrite Hv, bind_lift. unfold failureMessage in Hmsg.
  destruct config as [dc|sc];
    [destruct (d_operation dc) eqn:Hop | destruct (s_operation sc) eqn:Hop];
    try discriminate.
  - rewrite (Run_thrown c (deploymentWhatIf_run svc dc files) Hin Hans).
    cbn. rewrite Hp, Hb. cbn. rewrite Hparse. reflexivity.
  - rewrite (Run_thrown c (stackDelete_run svc sc Hop) Hin Hans).
    cbn. rewrite Hp, Hb. cbn. rewrite Hparse. reflexivity.
Qed.

(** A [RestError] without details, thrown by the remote call of a create
    or validate operation, is replaced by a [TypeError] on the way up. *)
Lemma execute_masks_error_without_details config files c r msg :
  failureMessage config = Some msg ->
  In (Remote c) (trace (execute svc parse str fmt lower config files)) ->
  answer svc c = Throw (Rest r) ->
  details r = None ->
  execute svc parse str fmt lower config files
  = mkAction
      (Throw (TypeError
         "Cannot destructure property 'error' of 'ex.details' as it is undefined."))
      [Remote c;
       LogError ("Request failed. CorrelationId: "
                   ++ toString (correlationIdOf r));
       SetFailed "Operation failed"].
Proof.
  intros Hmsg Hin Hans Hd.
  apply remoteCalls_In in Hin. rewrite execute_remoteCalls in Hin.
  destruct (validateFileScope config files) as [[]|] eqn:Hv; [|destruct Hin].
  unfold operationCalls in Hin. unfold execute, dispatch.
  rewrite Hv, bind_lift. unfold failureMessage in Hmsg.
  destruct config as [dc|sc];
    [destruct (d_operation dc) eqn:Hop | destruct (s_operation sc) eqn:Hop];
    try discriminate.
  - rewrite (Run_thrown c (deploymentCreate_run svc dc files) Hin Hans).
    unfold tryWithErrorHandling. cbn. rewrite Hd. reflexivity.
  - rewrite (Run_thrown c (deploymentValidate_run svc dc files) Hin Hans).
    unfold tryWithErrorHandling. cbn. rewrite Hd. reflexivity.
  - rewrite (Run_thrown c (stackCreate_run svc sc files Hop) Hin Hans).
    unfold tryWithErrorHandling. cbn. rewrite Hd. reflexivity.
  - rewrite (Run_thrown c (stackValidate_run svc sc files Hop) Hin Hans).
    unfold tryWithErrorHandling. cbn. rewrite Hd. reflexivity.
Qed.

(** A [RestError] whose response body is not JSON makes the handler at the
    top throw a [SyntaxError] before it marks the run failed. *)
Lemma execute_fails_on_malformed_body config files c r p :
  failureMessage config = None ->
  In (Remote c) (trace (execute svc parse str fmt lower config files)) ->
  answer svc c = Throw (Rest r) ->
  response r = Some p ->
  truthy (bodyAsText p) = true ->
  parse (toString (bodyAsText p)) = None ->
  execute svc parse str fmt lower config files
  = mkAction (Throw (SyntaxError "Unexpected token in JSON"))
      [Remote c;
       LogError ("Request failed. CorrelationId: "
                   ++ toString (headers_get (headers p) correlationHeader))].
Proof.
  intros Hmsg Hin Hans Hp Hb Hparse.
  apply remoteCalls_In in Hin. rewrite execute_remoteCalls in Hin.
  destruct (validateFileScope config files) as [[]|] eqn:Hv; [|destruct Hin].
  unfold operationCalls in Hin. unfold execute, dispatch.
  rewrite Hv, bind_lift. unfold failureMessage in Hmsg.
  destruct config as [dc|sc];
    [destruct (d_operation dc) eqn:Hop | destruct (s_operation sc) eqn:Hop];
    try discriminate.
  - rewrite (Run_thrown c (deploymentWhatIf_run svc dc files) Hin Hans).
    cbn. rewrite Hp, Hb. cbn. rewrite Hparse. reflexivity.
  - rewrite (Run_thrown c (stackDelete_run svc sc Hop) Hin Hans).
    cbn. rewrite Hp, Hb. cbn. rewrite Hparse. reflexivity.
Qed.

End Reraise.

Lemma isMasked_spec lower config key :
  isMasked lower config key = true <-> matchesMasked lower config key.
Proof.
  unfold isMasked, matchesMasked.
  destruct (maskedOutputs config) as [masked|].
  - rewrite existsb_exists. split.
    + intros [m [Hin Heq]]. exists masked, m.
      now apply String.eqb_eq in Heq.
    + intros [masked' [m [Hm [Hin Heq]]]]. injection Hm as <-.
      exists m. split; [exact Hin | now apply String.eqb_eq].
  - split; [discriminate|]. now intros [masked [m [H _]]].
Qed.

Lemma setCreateOutputs_trace lower config outs :
  trace (setCreateOutputs lower config (Some outs)) = flat_map (projected lower config) outs.
Proof.
  unfold setCreateOutputs.
  induction outs as [|[k v] outs IH]; [reflexivity|].
  cbn [forOf flat_map]. rewrite trace_bind, IH. unfold projected at 2.
  cbn [fst snd]. destruct (isMasked lower config k); reflexivity.
Qed.

Lemma nat_of_lowerChar (c : ascii) :
  nat_of_ascii (lowerChar c)
  = if isUpper c then nat_of_ascii c + 32 else nat_of_ascii c.
Proof.
  unfold lowerChar. destruct (isUpper c) eqn:E; [|reflexivity].
  apply nat_ascii_embedding. unfold isUpper in E.
  apply andb_prop in E as [_ E]. apply Nat.leb_le in E. lia.
Qed.

Lemma nat_of_ascii_inj (a b : ascii) :
  nat_of_ascii a = nat_of_ascii b -> a = b.
Proof.
  intros H. rewrite <- (ascii_nat_embedding a), <- (ascii_nat_embedding b).
  now rewrite H.
Qed.

Lemma isUpper_range (c : ascii) :
  isUpper c = true <-> 65 <= nat_of_ascii c <= 90.
Proof.
  unfold isUpper. rewrite andb_true_iff, !Nat.leb_le. reflexivity.
Qed.

Lemma lowerChar_sameLetter (a b : ascii) :
  lowerChar a = lowerChar b <-> sameLetter a b = true.
Proof.
  unfold sameLetter. rewrite !orb_true_iff, !andb_true_iff, !Nat.eqb_eq.
  rewrite !isUpper_range. split.
  - intros H. apply (f_equal nat_of_ascii) in H.
    rewrite !nat_of_lowerChar in H.
    destruct (isUpper a) eqn:Ea, (isUpper b) eqn:Eb;
      try apply isUpper_range in Ea; try apply isUpper_range in Eb; lia.
  - intros H. apply nat_of_ascii_inj. rewrite !nat_of_lowerChar.
    destruct (isUpper a) eqn:Ea, (isUpper b) eqn:Eb;
      try apply isUpper_range in Ea; try apply isUpper_range in Eb;
      try lia.
    + assert (Hb : ~ 65 <= nat_of_ascii b <= 90)
        by (rewrite <- isUpper_range; congruence). lia.
    + assert (Ha : ~ 65 <= nat_of_ascii a <= 90)
        by (rewrite <- isUpper_range; congruence). lia.
    + assert (Ha : ~ 65 <= nat_of_ascii a <= 90)
        by (rewrite <- isUpper_range; congruence).
      assert (Hb : ~ 65 <= nat_of_ascii b <= 90)
        by (rewrite <- isUpper_range; congruence). lia.
Qed.

(** Equality after [toLowerCase] is equality up to the case of the letters
    A to Z. *)
Lemma toLowerCase_equalIgnoringCase (s t : string) :
  toLowerCase s = toLowerCase t <-> equalIgnoringCase s t = true.
Proof.
  revert t. induction s as [|a s IH]; intros [|b t]; cbn;
    try (split; [discriminate | discriminate]); [tauto|].
  rewrite andb_true_iff, <- IH, <- lowerChar_sameLetter. split.
  - intros H. now injection H.
  - intros [-> ->]. reflexivity.
Qed.

(** C9. Output projection writes every returned output entry to the output
    channel under its key, in order; after an entry whose key matches an
    entry of [maskedOutputs] up to case it registers the value as a secret,
    and it writes the other entries plainly; without outputs it does
    nothing. Two names match when the lower-casing of the runtime makes them
    equal, which for ASCII names is: when they differ at most in the case of
    their letters. *)
Theorem C9_output_projection
    (lower : string -> string) (config : CommonConfig) (outs : Outputs) :
  (forall s, isAsciiText s = true -> lower s = toLowerCase s) ->
  setCreateOutputs lower config None = mkAction (Return tt) []
  /\ outcome (setCreateOutputs lower config (Some outs)) = Return tt
  /\ trace (setCreateOutputs lower config (Some outs))
     = flat_map (projected lower config) outs
  /\ (forall key out,
        In (key, out) outs ->
        In (SetOutput key (value out))
           (trace (setCreateOutputs lower config (Some outs))))
  /\ (forall key out,
        matchesMasked lower config key ->
        projected lower config (key, out)
        = [SetOutput key (value out); SetSecret (value out)])
  /\ (forall key out,
        ~ matchesMasked lower config key ->
        projected lower config (key, out) = [SetOutput key (value out)])
  /\ (forall v,
        In (SetSecret v) (trace (setCreateOutputs lower config (Some outs))) ->
        exists key out,
          In (key, out) outs /\ value out = v
          /\ matchesMasked lower config key)
  /\ (forall masked key,
        maskedOutputs config = Some masked ->
        forallb isAsciiText masked = true ->
        isAsciiText key = true ->
        (matchesMasked lower config key
         <-> exists m, In m masked /\ equalIgnoringCase m key = true))
  /\ (forall key, maskedOutputs config = None ->
                  ~ matchesMasked lower config key).
Proof.
  intros Hlower. repeat apply conj.
  - reflexivity.
  - apply setCreateOutputs_outcome.
  - apply setCreateOutputs_trace.
  - intros key out Hin. rewrite setCreateOutputs_trace.
    apply in_flat_map. exists (key, out). split; [exact Hin|].
    unfold projected. cbn [fst snd].
    destruct (isMasked lower config key); now left.
  - intros key out Hm. apply isMasked_spec in Hm.
    unfold projected. cbn [fst snd]. now rewrite Hm.
  - intros key out Hm. unfold projected. cbn [fst snd].
    destruct (isMasked lower config key) eqn:E; [|reflexivity].
    now apply isMasked_spec in E.
  - intros v Hin. rewrite setCreateOutputs_trace in Hin.
    apply in_flat_map in Hin as [[key out] [Hin Hp]].
    unfold projected in Hp. cbn [fst snd] in Hp.
    destruct (isMasked lower config key) eqn:E.
    + destruct Hp as [Hp | [Hp | []]]; [discriminate|].
      injection Hp as <-. exists key, out.
      repeat split; [exact Hin | now apply isMasked_spec].
    + destruct Hp as [Hp | []]. discriminate.
  - intros masked key Hmasked Hascii Hkey.
    rewrite forallb_forall in Hascii. split.
    + intros [masked' [m [Hm [Hin Heq]]]].
      rewrite Hmasked in Hm. injection Hm as <-.
      exists m. split; [exact Hin|].
      rewrite !Hlower in Heq by auto.
      now apply toLowerCase_equalIgnoringCase.
    + intros [m [Hin Heq]]. exists masked, m.
      split; [exact Hmasked|]. split; [exact Hin|].
      rewrite !Hlower by auto.
      now apply toLowerCase_equalIgnoringCase.
  - intros key Hnone [masked [m [Hm _]]]. congruence.
Qed.

(** C8. A template without generator metadata (no [metadata], no
    [_generator] or no [name] in it), and likewise no template at all,
    passes scope validation for every configured scope, whatever its
    [$schema] is: no scope is inferred and nothing is thrown. *)
Theorem C8_templates_without_generator_metadata_pass
    (config : ActionConfig) (files : ParsedFiles) :
  generatorName (templateOrEmpty files) = None ->
  getScope files = Return None
  /\ validateFileScope config files = Return tt.
Proof.
  intros H. unfold validateFileScope, getScope. now rewrite H.
Qed.

(** C7. For a generated template whose [$schema] is present and matches the
    pattern with a scope token that, in lower case, is none of
    [tenantdeployment], [managementgroupdeployment],
    [subscriptiondeployment] and [deployment], scope validation throws
    [Failed to determine deployment scope from Bicep file.]: it neither
    skips the check nor infers a scope. *)
Theorem C7_unknown_scope_token_fails
    (config : ActionConfig) (files : ParsedFiles)
    (uri : string) (result : list (option string)) (tok : string) :
  truthy (generatorName (templateOrEmpty files)) = true ->
  schema (templateOrEmpty files) = Some uri ->
  exec schemaRegex uri = Some result ->
  nth 1 result None = Some tok ->
  toLowerCase tok <> "tenantdeployment" ->
  toLowerCase tok <> "managementgroupdeployment" ->
  toLowerCase tok <> "subscriptiondeployment" ->
  toLowerCase tok <> "deployment" ->
  getScope files
  = Throw (Error "Failed to determine deployment scope from Bicep file.")
  /\ validateFileScope config files
     = Throw (Error "Failed to determine deployment scope from Bicep file.").
Proof.
  intros Hgen Hschema Hexec Htok H1 H2 H3 H4.
  assert (H : getScope files
    = Throw (Error "Failed to determine deployment scope from Bicep file.")).
  { unfold getScope. rewrite Hgen, Hschema. cbn [negb].
    unfold toString. rewrite Hexec. unfold scopeMatch. rewrite Htok.
    unfold scopeOfToken.
    apply String.eqb_neq in H1, H2, H3, H4. now rewrite H1, H2, H3, H4. }
  split; [exact H|]. unfold validateFileScope. now rewrite H.
Qed.

(** C1. When a template-spec identifier is present, the request body of a
    deployment and of a stack carries the reference [templateLink.id], and
    as [template] it carries the template contents of the parsed files
    unchanged: it holds the reference alone exactly when the parsed files
    hold no template contents. *)
Theorem C1_template_spec_reference
    (dc : DeploymentsConfig) (sc : DeploymentStackConfig)
    (files : ParsedFiles) :
  truthy (templateSpecId files) = true ->
  let d := Deployment.properties (getDeployment dc files) in
  let s := DeploymentStack.properties (getStack sc files) in
  Deployment.templateLink d
    = Some (mkTemplateLink (toString (templateSpecId files)))
  /\ DeploymentStack.templateLink s
     = Some (mkTemplateLink (toString (templateSpecId files)))
  /\ Deployment.template d = templateContents files
  /\ DeploymentStack.template s = templateContents files
  /\ (Deployment.template d = None <-> templateContents files = None)
  /\ (DeploymentStack.template s = None <-> templateContents files = None).
Proof.
  intros H d s. subst d s. unfold getDeployment, getStack, templateLinkOf.
  cbn. rewrite H. repeat split; auto.
Qed.

Section TenantCreate.

Variable svc : Service.
Variable parse : string -> option Json.
Variable str : Json -> string.
Variable fmt : WhatIfOperationResult -> string -> string.
Variable lower : string -> string.

Lemma tenantCreate_cases config files tid :
  scope (d_common config) = TenantScope tid ->
  (locationSet (d_common config) = false
   /\ deploymentCreate svc config files
      = raise (Error "Location is required"))
  \/ (locationSet (d_common config) = true
      /\ deploymentCreate svc config files
         = mkAction
             match answer svc (tenantCreateCall config files) with
             | Return _ => Return None
             | Throw e => Throw e
             end
             [Remote (tenantCreateCall config files)]).
Proof.
  intros Hs. unfold deploymentCreate, tenantCreateCall, locationSet,
    requireLocation, beginCreateOrUpdate, answer.
  rewrite Hs. destruct (truthy (location (d_common config))); cbn [negb].
  - right. split; [reflexivity|]. rewrite bind_ret.
    now destruct (deployments_createOrUpdate _ _ _ _ _).
  - now left.
Qed.

Lemma tenantCreate_writesOutput config files tid :
  scope (d_common config) = TenantScope tid ->
  d_operation config = dCreate ->
  filter writesOutput
    (trace (execute svc parse str fmt lower (deployment config) files)) = [].
Proof.
  intros Hs Hop. unfold execute.
  rewrite trace_catch, filter_app.
  replace (filter writesOutput match outcome _ with
                               | Return _ => []
                               | Throw e => trace (onFailure parse str e)
                               end) with (@nil Event)
    by (destruct (outcome _); [reflexivity|];
        now rewrite onFailure_writesOutput).
  rewrite app_nil_r. unfold dispatch.
  destruct (validateFileScope _ _) as [[]|e]; [|reflexivity].
  rewrite bind_lift, Hop.
  destruct (tenantCreate_cases config files Hs) as [[_ ->] | [_ ->]].
  - reflexivity.
  - unfold tryWithErrorHandling, setCreateOutputs, onCreateError,
      logError, setFailed, emit.
    destruct (answer _ _) as [[]|e]; cbn; [reflexivity|].
    repeat (break_match; cbn); reflexivity.
Qed.

End TenantCreate.

(** C10. A deployment create at tenant scope throws away what the remote
    operation returns: [deploymentCreate] yields [undefined] whenever it
    returns, and it does return when the location is set and the remote
    operation succeeds. So [execute] writes no output and registers no
    secret for such a create, whatever outputs the service returned. *)
Theorem C10_tenant_create_discards_the_result
    (svc : Service) (parse : string -> option Json) (str : Json -> string)
    (fmt : WhatIfOperationResult -> string -> string)
    (lower : string -> string)
    (config : DeploymentsConfig) (files : ParsedFiles)
    (tid : option string) :
  scope (d_common config) = TenantScope tid ->
  d_operation config = dCreate ->
  (forall result,
     outcome (deploymentCreate svc config files) = Return result ->
     result = None)
  /\ (locationSet (d_common config) = true ->
      answer svc (tenantCreateCall config files) = Return tt ->
      deploymentCreate svc config files
      = mkAction (Return None) [Remote (tenantCreateCall config files)])
  /\ (locationSet (d_common config) = true ->
      answer svc (tenantCreateCall config files) = Return tt ->
      validateFileScope (deployment config) files = Return tt ->
      execute svc parse str fmt lower (deployment config) files
      = mkAction (Return tt) [Remote (tenantCreateCall config files)])
  /\ filter writesOutput
       (trace (execute svc parse str fmt lower (deployment config) files)) = [].
Proof.
  intros Hs Hop.
  pose proof (tenantCreate_cases svc config files Hs) as Hcases.
  repeat split.
  - intros result H. destruct Hcases as [[_ E] | [_ E]]; rewrite E in H.
    + discriminate.
    + cbn [outcome] in H. destruct (answer _ _); congruence.
  - intros Hloc Hans. destruct Hcases as [[E _] | [_ E]]; [congruence|].
    now rewrite E, Hans.
  - intros Hloc Hans Hv. destruct Hcases as [[E _] | [_ E]]; [congruence|].
    unfold execute, dispatch. rewrite Hv, bind_lift, Hop, E, Hans.
    reflexivity.
  - now apply tenantCreate_writesOutput with (tid := tid).
Qed.

(* ===================================================================== *)
(** ** The call of each operation *)
(* ===================================================================== *)

Lemma withLocation_getDeployment config files :
  truthy (location (d_common config)) = true ->
  Deployment.withLocation (getDeployment config files)
    (toString (location (d_common config)))
  = getDeployment config files.
Proof.
  unfold Deployment.withLocation, getDeployment, toString, truthy.
  cbn. now destruct (location (d_common config)).
Qed.

Section Explicit.

Variable svc : Service.

Lemma deploymentCreate_called config files :
  reach (deployment config) = CallsRemote ->
  d_operation config = dCreate ->
  deploymentCreate svc config files
  = mkAction
      match returned svc (expectedCall (deployment config) files) with
      | Some (Return r) =>
          Return match scope (d_common config) with
                 | TenantScope _ => None
                 | _ => Some r
                 end
      | Some (Throw e) => Throw e
      | None => Return None
      end
      [Remote (expectedCall (deployment config) files)].
Proof.
  intros Hr Hop. unfold expectedCall, returned. rewrite Hop.
  unfold deploymentCreate, beginCreateOrUpdate, requireLocation.
  unfold reach, reachWithLocation, locationSet in Hr.
  destruct (scope (d_common config)) eqn:Hs; cbn [targetOf];
    try (destruct (truthy (location (d_common config))) eqn:Hl;
         [|discriminate]; cbn [negb];
         rewrite bind_ret, (withLocation_getDeployment _ _ Hl));
    now destruct (deployments_createOrUpdate _ _ _ _ _).
Qed.

Lemma deploymentValidate_called config files :
  reach (deployment config) = CallsRemote ->
  d_operation config = dValidate ->
  deploymentValidate svc config files
  = mkAction
      match answer svc (expectedCall (deployment config) files) with
      | Return _ =>
          match deployments_validate svc
                  (getDeploymentClient (scope (d_common config)))
                  (targetOf (scope (d_common config)))
                  (nullish (name (d_common config)) defaultName)
                  (getDeployment config files) with
          | Return r =>
              Return match scope (d_common config) with
                     | TenantScope _ => None
                     | _ => Some r
                     end
          | Throw e => Throw e
          end
      | Throw e => Throw e
      end
      [Remote (expectedCall (deployment config) files)].
Proof.
  intros Hr Hop. unfold expectedCall, answer. rewrite Hop.
  unfold deploymentValidate, beginValidate, requireLocation.
  unfold reach, reachWithLocation, locationSet in Hr.
  destruct (scope (d_common config)) eqn:Hs; cbn [targetOf];
    try (destruct (truthy (location (d_common config))) eqn:Hl;
         [|discriminate]; cbn [negb];
         rewrite bind_ret, (withLocation_getDeployment _ _ Hl));
    now destruct (deployments_validate _ _ _ _ _).
Qed.

Lemma deploymentWhatIf_called config files :
  reach (deployment config) = CallsRemote ->
  d_operation config = dWhatIf ->
  deploymentWhatIf svc config files
  = mkAction
      match predicted svc (expectedCall (deployment config) files) with
      | Some o => o
      | None => Throw (Thrown "")
      end
      [Remote (expectedCall (deployment config) files)].
Proof.
  intros Hr Hop. unfold expectedCall, predicted. rewrite Hop.
  unfold deploymentWhatIf, beginWhatIf, requireLocation.
  unfold reach, reachWithLocation, locationSet in Hr.
  destruct (scope (d_common config)) eqn:Hs; cbn [targetOf];
    try (destruct (truthy (location (d_common config))) eqn:Hl;
         [|discriminate]; cbn [negb];
         rewrite bind_ret, (withLocation_getDeployment _ _ Hl));
    reflexivity.
Qed.

Lemma stackCreate_called config files :
  reach (deploymentStack config) = CallsRemote ->
  s_operation config = sCreate ->
  stackCreate svc config files
  = mkAction
      match returned svc (expectedCall (deploymentStack config) files) with
      | Some (Return r) => Return (Some r)
      | Some (Throw e) => Throw e
      | None => Return None
      end
      [Remote (expectedCall (deploymentStack config) files)].
Proof.
  intros Hr Hop. unfold expectedCall, returned, stackBody. rewrite Hop.
  unfold stackCreate, stacksBeginCreateOrUpdate, requireLocation.
  unfold reach, reachWithLocation, locationSet in Hr. rewrite Hop in Hr.
  destruct (scope (s_common config)) eqn:Hs; cbn [targetOf];
    try discriminate;
    try (destruct (truthy (location (s_common config))) eqn:Hl;
         [|discriminate]; cbn [negb]; rewrite bind_ret);
    now destruct (stacks_createOrUpdate _ _ _ _ _).
Qed.

Lemma stackValidate_called config files :
  reach (deploymentStack config) = CallsRemote ->
  s_operation config = sValidate ->
  discard (outcome (stackValidate svc config files))
  = answer svc (expectedCall (deploymentStack config) files)
  /\ trace (stackValidate svc config files)
     = [Remote (expectedCall (deploymentStack config) files)].
Proof.
  intros Hr Hop. unfold expectedCall, answer, stackBody. rewrite Hop.
  unfold stackValidate, stacksBeginValidateStack, requireLocation.
  unfold reach, reachWithLocation, locationSet in Hr. rewrite Hop in Hr.
  destruct (scope (s_common config)) eqn:Hs; cbn [targetOf];
    try discriminate;
    try (destruct (truthy (location (s_common config))) eqn:Hl;
         [|discriminate]; cbn [negb]; rewrite bind_ret);
    now destruct (stacks_validateStack _ _ _ _ _).
Qed.

Lemma stackDelete_called config :
  reach (deploymentStack config) = CallsRemote ->
  s_operation config = sDelete ->
  forall files,
    stackDelete svc config
    = mkAction
        (answer svc (expectedCall (deploymentStack config) files))
        [Remote (expectedCall (deploymentStack config) files)].
Proof.
  intros Hr Hop files. unfold expectedCall, answer. rewrite Hop.
  unfold stackDelete, stacksBeginDelete.
  unfold reach in Hr. rewrite Hop in Hr.
  destruct (scope (s_common config)) eqn:Hs; cbn [targetOf];
    try discriminate;
    now destruct (stacks_delete _ _ _ _ _) as [[]|].
Qed.

Lemma operationCalls_expected config files :
  operationCalls svc config files
  = match reach config with
    | CallsRemote => [expectedCall config files]
    | _ => []
    end.
Proof.
  pose proof (operationCalls_reach svc config files) as H.
  destruct (reach config) eqn:Hr; try exact H. clear H.
  unfold operationCalls.
  destruct config as [c|c];
    [destruct (d_operation c) eqn:Hop | destruct (s_operation c) eqn:Hop].
  - now rewrite (deploymentCreate_called c files Hr Hop).
  - now rewrite (deploymentValidate_called c files Hr Hop).
  - now rewrite (deploymentWhatIf_called c files Hr Hop).
  - now rewrite (stackCreate_called c files Hr Hop).
  - now rewrite (proj2 (stackValidate_called c files Hr Hop)).
  - now rewrite (stackDelete_called c Hr Hop files).
Qed.

End Explicit.

(** A remote call seen in the trace of [execute] is the call of the
    configuration: scope validation has passed and the operation has
    reached it. *)
Lemma execute_call svc parse str fmt lower config files c :
  In (Remote c) (trace (execute svc parse str fmt lower config files)) ->
  validateFileScope config files = Return tt
  /\ reach config = CallsRemote
  /\ c = expectedCall config files.
Proof.
  intros Hin. apply remoteCalls_In in Hin.
  rewrite execute_remoteCalls in Hin.
  destruct (validateFileScope config files) as [[]|]; [|destruct Hin].
  rewrite operationCalls_expected in Hin.
  destruct (reach config); try destruct Hin as [<- | []]; try destruct Hin.
  auto.
Qed.

(** X1. Every remote call [execute] makes is the method of the kind of
    resource and the operation, addressed at the configured scope (with the
    resource group or management group of the scope), under the configured
    name, or [azure-bicep-deploy] when no name is configured. *)
Theorem X1_call_matches_configuration
    (svc : Service) (parse : string -> option Json) (str : Json -> string)
    (fmt : WhatIfOperationResult -> string -> string)
    (lower : string -> string)
    (config : ActionConfig) (files : ParsedFiles) (c : RemoteCall) :
  In (Remote c) (trace (execute svc parse str fmt lower config files)) ->
  callMethod c = methodOf config
  /\ callTarget c = targetOf (scope (common config))
  /\ callName c = match name (common config) with
                  | Some n => n
                  | None => "azure-bicep-deploy"
                  end.
Proof.
  intros Hin. apply execute_call in Hin as [_ [_ ->]].
  unfold expectedCall, methodOf.
  destruct config as [dc|sc]; cbn [common];
    [destruct (d_operation dc) | destruct (s_operation sc)];
    repeat split; reflexivity.
Qed.

(** X2. Every remote call [execute] makes goes through a client built for
    the tenant of the scope and for its subscription, or for the all-zero
    subscription when the scope has none (tenant and management group);
    deployments pin the API version [2024-03-01], stacks pin none. *)
Theorem X2_client_of_the_scope
    (svc : Service) (parse : string -> option Json) (str : Json -> string)
    (fmt : WhatIfOperationResult -> string -> string)
    (lower : string -> string)
    (config : ActionConfig) (files : ParsedFiles) (c : RemoteCall) :
  In (Remote c) (trace (execute svc parse str fmt lower config files)) ->
  credentialTenantId (callClient c) = scope_tenantId (scope (common config))
  /\ clientSubscriptionId (callClient c)
     = match scope (common config) with
       | SubscriptionScope _ sub | ResourceGroupScope _ sub _ => sub
       | TenantScope _ | ManagementGroupScope _ _ =>
           "00000000-0000-0000-0000-000000000000"
       end
  /\ userAgent (callClient c) = "gh-azure-bicep-deploy"
  /\ apiVersion (callClient c)
     = match config with
       | deployment _ => Some "2024-03-01"
       | deploymentStack _ => None
       end.
Proof.
  intros Hin. apply execute_call in Hin as [_ [_ ->]].
  unfold expectedCall.
  destruct config as [dc|sc]; cbn [common];
    [destruct (d_operation dc), (scope (d_common dc))
    |destruct (s_operation sc), (scope (s_common sc))];
    repeat split; reflexivity.
Qed.

(** X3. The body of every deployment call [execute] makes is the one
    [getDeployment] builds, at every scope: incremental mode, inner
    expression evaluation, the template, parameters, tags and location of
    the configuration and the parsed files; above the resource-group scope
    its location is set. The body of every stack call has the properties
    and tags [getStack] builds; its location is the configured one above
    the resource-group scope, where it is set, and absent at resource-group
    scope even when one is configured. *)
Theorem X3_request_body
    (svc : Service) (parse : string -> option Json) (str : Json -> string)
    (fmt : WhatIfOperationResult -> string -> string)
    (lower : string -> string)
    (config : ActionConfig) (files : ParsedFiles) (c : RemoteCall) :
  In (Remote c) (trace (execute svc parse str fmt lower config files)) ->
  (forall d, callDeployment c = Some d ->
     exists dc,
       config = deployment dc
       /\ d = getDeployment dc files
       /\ Deployment.location d = location (d_common dc)
       /\ Deployment.tags d = tags (d_common dc)
       /\ Deployment.mode (Deployment.properties d) = "Incremental"
       /\ Deployment.scope
            (Deployment.expressionEvaluationOptions (Deployment.properties d))
          = "inner"
       /\ Deployment.template (Deployment.properties d)
          = templateContents files
       /\ Deployment.parameters (Deployment.properties d)
          = parameters (parametersContents files)
       /\ (scope_type (scope (d_common dc)) <> resourceGroup ->
           truthy (Deployment.location d) = true))
  /\ (forall s, callStack c = Some s ->
       exists sc,
         config = deploymentStack sc
         /\ DeploymentStack.properties s
            = DeploymentStack.properties (getStack sc files)
         /\ DeploymentStack.tags s = tags (s_common sc)
         /\ DeploymentStack.location s
            = match scope_type (scope (s_common sc)) with
              | resourceGroup => None
              | _ => location (s_common sc)
              end
         /\ (scope_type (scope (s_common sc)) <> resourceGroup ->
             truthy (DeploymentStack.location s) = true)).
Proof.
  intros Hin. apply execute_call in Hin as [_ [Hr ->]].
  unfold expectedCall. split.
  - intros d Hd.
    destruct config as [dc|sc];
      [|destruct (s_operation sc); discriminate].
    exists dc.
    assert (d = getDeployment dc files) as -> by
      (destruct (d_operation dc); cbn in Hd; congruence).
    repeat split. intros Hne. unfold getDeployment.
    cbn [Deployment.location].
    unfold reach, reachWithLocation, locationSet in Hr.
    destruct (scope (d_common dc)); cbn in Hne; try congruence;
      now destruct (truthy (location (d_common dc))).
  - intros s Hs.
    destruct config as [dc|sc];
      [destruct (d_operation dc); discriminate|].
    exists sc.
    assert (s = stackBody sc files) as ->.
    { destruct (s_operation sc); cbn in Hs; congruence. }
    assert (Hop : s_operation sc <> sDelete)
      by (destruct (s_operation sc); cbn in Hs; congruence).
    assert (Hl : scope_type (scope (s_common sc)) <> resourceGroup ->
                 exists l, location (s_common sc) = Some l
                           /\ truthy (Some l) = true).
    { unfold reach, reachWithLocation, locationSet in Hr. intros Hne.
      destruct (scope (s_common sc)), (s_operation sc); cbn in Hne;
        try congruence; try discriminate;
        destruct (location (s_common sc)) as [l|];
        try discriminate;
        (exists l; split; [reflexivity | now destruct (truthy (Some l))]). }
    unfold stackBody. unfold reach in Hr. cbn [s_common] in Hr.
    destruct (scope (s_common sc)); cbn [scope_type] in *.
    + destruct (s_operation sc); discriminate.
    + destruct Hl as [l [Hl Ht]]; [discriminate|].
      repeat split; intros; cbn; now rewrite ?Hl.
    + destruct Hl as [l [Hl Ht]]; [discriminate|].
      repeat split; intros; cbn; now rewrite ?Hl.
    + repeat split. congruence.
Qed.

(** X4. Deleting a stack sends the unmanage actions and the bypass flag of
    the configuration and nothing else, and does not depend on the parsed
    files: with any two parsed files that pass scope validation the run is
    the same. *)
Theorem X4_stack_delete
    (svc : Service) (parse : string -> option Json) (str : Json -> string)
    (fmt : WhatIfOperationResult -> string -> string)
    (lower : string -> string)
    (config : DeploymentStackConfig) (files files' : ParsedFiles) :
  s_operation config = sDelete ->
  validateFileScope (deploymentStack config) files = Return tt ->
  validateFileScope (deploymentStack config) files' = Return tt ->
  execute svc parse str fmt lower (deploymentStack config) files
  = execute svc parse str fmt lower (deploymentStack config) files'
  /\ (forall c,
        In (Remote c)
           (trace (execute svc parse str fmt lower (deploymentStack config) files)) ->
        callDeletionOptions c
        = Some (mkDeletionOptions
                  (resources (actionOnUnManage config))
                  (resourceGroups (actionOnUnManage config))
                  (managementGroups (actionOnUnManage config))
                  (bypassStackOutOfSyncError config))).
Proof.
  intros Hop Hv Hv'. split.
  - unfold execute, dispatch. now rewrite Hv, Hv', Hop.
  - intros c Hin. apply execute_call in Hin as [_ [_ ->]].
    unfold expectedCall. now rewrite Hop.
Qed.

(* ===================================================================== *)
(** ** Error translation and the outcome of a run *)
(* ===================================================================== *)

(** X9. [tryWithErrorHandling] leaves a returning action alone, and lets
    every exception that is no [RestError] through unchanged, without
    logging and without calling [onError]. For a [RestError] it logs the
    correlation id; it calls [onError], and then returns [undefined], only
    when the details carry an [error]; without one it throws the error
    again. *)
Theorem X9_tryWithErrorHandling_passes_through
    (T : Type) (action : Action T) (onError : ErrorResponse -> Action unit) :
  (forall a, outcome action = Return a ->
     tryWithErrorHandling action onError
     = mkAction (Return (Some a)) (trace action))
  /\ (forall e, outcome action = Throw e -> (forall r, e <> Rest r) ->
       tryWithErrorHandling action onError
       = mkAction (Throw e) (trace action))
  /\ (forall r cloudError err,
       outcome action = Throw (Rest r) ->
       details r = Some cloudError -> error cloudError = Some err ->
       outcome (onError err) = Return tt ->
       tryWithErrorHandling action onError
       = mkAction (Return None)
           (trace action
              ++ LogError ("Request failed. CorrelationId: "
                             ++ toString (correlationIdOf r))
              :: trace (onError err)))
  /\ (forall r cloudError,
       outcome action = Throw (Rest r) ->
       details r = Some cloudError -> error cloudError = None ->
       tryWithErrorHandling action onError
       = mkAction (Throw (Rest r))
           (trace action
              ++ [LogError ("Request failed. CorrelationId: "
                              ++ toString (correlationIdOf r))])).
Proof.
  unfold tryWithErrorHandling, logError, emit.
  destruct action as [o t]. cbn [outcome trace]. repeat split.
  - intros a ->. cbn. now rewrite app_nil_r.
  - intros e -> Hne. cbn.
    destruct e; cbn; rewrite ?app_nil_r; try reflexivity.
    now destruct (Hne e).
  - intros r ce err -> Hd He Ho. cbn. rewrite Hd, He. cbn. rewrite Ho.
    cbn. now rewrite app_nil_r.
  - intros r ce -> Hd He. cbn. rewrite Hd, He. reflexivity.
Qed.

Lemma filter_bind {A B : Type} (P : Event -> bool) (m : Action A)
    (f : A -> Action B) :
  (forall a, filter P (trace (f a)) = []) ->
  filter P (trace (bind m f)) = filter P (trace m).
Proof.
  intros H. rewrite trace_bind, filter_app.
  destruct (outcome m); [rewrite H|]; apply app_nil_r.
Qed.

Lemma filter_catch {A : Type} (P : Event -> bool) (m : Action A)
    (h : Exn -> Action A) :
  (forall e, filter P (trace (h e)) = []) ->
  filter P (trace (catch m h)) = filter P (trace m).
Proof.
  intros H. rewrite trace_catch, filter_app.
  destruct (outcome m); [|rewrite H]; apply app_nil_r.
Qed.

Lemma tryWithErrorHandling_filter {T : Type} (P : Event -> bool)
    (action : Action T) (onError : ErrorResponse -> Action unit) :
  (forall msg, P (LogError msg) = false) ->
  (forall err, filter P (trace (onError err)) = []) ->
  filter P (trace (tryWithErrorHandling action onError))
  = filter P (trace action).
Proof.
  intros Hlog H. unfold tryWithErrorHandling.
  rewrite filter_catch.
  - now apply filter_bind.
  - intros [| | | r |]; try reflexivity.
    rewrite filter_bind; [cbn; now rewrite Hlog|]. intros [].
    destruct (details r) as [d|]; [|reflexivity].
    destruct (error d) as [err|]; [|reflexivity].
    rewrite filter_bind; [apply H | reflexivity].
Qed.

Lemma Run_filter {A : Type} svc (P : Event -> bool) (m : Action A) r :
  (forall c, P (Remote c) = false) ->
  Run svc m r -> filter P (trace m) = [].
Proof.
  intros HP [c Ht Ho | -> | a ->]; [|reflexivity ..].
  rewrite Ht. cbn. now rewrite HP.
Qed.

Lemma setCreateOutputs_marksFailed lower config outs :
  filter marksFailed (trace (setCreateOutputs lower config outs)) = [].
Proof.
  destruct outs as [outs|]; [|reflexivity].
  rewrite setCreateOutputs_trace.
  induction outs as [|[k v] outs IH]; [reflexivity|].
  cbn [flat_map]. rewrite filter_app, IH. unfold projected.
  now destruct (isMasked lower config _).
Qed.

Lemma setCreateOutputs_run lower config outs :
  setCreateOutputs lower config outs
  = mkAction (Return tt)
      match outs with
      | Some entries => flat_map (projected lower config) entries
      | None => []
      end.
Proof.
  pose proof (setCreateOutputs_outcome lower config outs) as Ho.
  assert (Ht : trace (setCreateOutputs lower config outs)
               = match outs with
                 | Some entries => flat_map (projected lower config) entries
                 | None => []
                 end)
    by (destruct outs; [apply setCreateOutputs_trace | reflexivity]).
  destruct (setCreateOutputs lower config outs) as [o t]. cbn in Ho, Ht.
  now subst.
Qed.

(** X10. When the remote call of a validate or of a stack delete returns,
    [execute] returns and the remote call is all that happened: nothing is
    logged and the run is not marked failed. *)
Theorem X10_validate_and_delete_succeed_silently
    (svc : Service) (parse : string -> option Json) (str : Json -> string)
    (fmt : WhatIfOperationResult -> string -> string)
    (lower : string -> string)
    (config : ActionConfig) (files : ParsedFiles) (c : RemoteCall) :
  In (Remote c) (trace (execute svc parse str fmt lower config files)) ->
  callMethod c = Validate \/ callMethod c = StackValidate
  \/ callMethod c = StackDelete ->
  answer svc c = Return tt ->
  execute svc parse str fmt lower config files = mkAction (Return tt) [Remote c].
Proof.
  intros Hin Hm Hans. apply execute_call in Hin as [Hv [Hr ->]].
  unfold execute, dispatch. rewrite Hv, bind_lift.
  unfold expectedCall in Hm.
  destruct config as [dc|sc];
    [destruct (d_operation dc) eqn:Hop | destruct (s_operation sc) eqn:Hop];
    cbn in Hm; try (destruct Hm as [Hm | [Hm | Hm]]; discriminate).
  - rewrite (deploymentValidate_called svc dc files Hr Hop), Hans.
    unfold answer, expectedCall in Hans. rewrite Hop in Hans.
    now destruct (deployments_validate _ _ _ _ _).
  - destruct (stackValidate_called svc sc files Hr Hop) as [Ho Ht].
    rewrite Hans in Ho.
    destruct (stackValidate svc sc files) as [o t]. cbn in Ho, Ht. subst t.
    now destruct o.
  - now rewrite (stackDelete_called svc sc Hr Hop files), Hans.
Qed.

(** X11. When the remote call of a what-if returns, [execute] formats the
    result with the [ansii] color mode, writes it as one raw info line and
    returns; the run is not marked failed. *)
Theorem X11_what_if_logs_the_formatted_result
    (svc : Service) (parse : string -> option Json) (str : Json -> string)
    (fmt : WhatIfOperationResult -> string -> string)
    (lower : string -> string)
    (config : ActionConfig) (files : ParsedFiles) (c : RemoteCall)
    (result : WhatIfOperationResult) :
  In (Remote c) (trace (execute svc parse str fmt lower config files)) ->
  predicted svc c = Some (Return result) ->
  execute svc parse str fmt lower config files
  = mkAction (Return tt) [Remote c; LogInfoRaw (fmt result "ansii")].
Proof.
  intros Hin Hp. apply execute_call in Hin as [Hv [Hr ->]].
  unfold execute, dispatch. rewrite Hv, bind_lift.
  destruct config as [dc|sc];
    [destruct (d_operation dc) eqn:Hop | destruct (s_operation sc) eqn:Hop];
    try (unfold predicted, expectedCall in Hp; rewrite Hop in Hp;
         discriminate).
  now rewrite (deploymentWhatIf_called svc dc files Hr Hop), Hp.
Qed.

(** X12. When the remote call of a create below tenant scope returns,
    [execute] projects the outputs of the returned resource, in order, right
    after the call and returns; without [properties] or without [outputs] in
    the returned resource nothing is written. The run is not marked
    failed. *)
Theorem X12_create_writes_the_returned_outputs
    (svc : Service) (parse : string -> option Json) (str : Json -> string)
    (fmt : WhatIfOperationResult -> string -> string)
    (lower : string -> string)
    (config : ActionConfig) (files : ParsedFiles) (c : RemoteCall)
    (resource : Resource) :
  In (Remote c) (trace (execute svc parse str fmt lower config files)) ->
  returned svc c = Some (Return resource) ->
  callTarget c <> AtTenant ->
  execute svc parse str fmt lower config files
  = mkAction (Return tt)
      (Remote c
       :: match properties resource with
          | Some p =>
              match outputs p with
              | Some entries => flat_map (projected lower (common config)) entries
              | None => []
              end
          | None => []
          end).
Proof.
  intros Hin Hc Ht. apply execute_call in Hin as [Hv [Hr ->]].
  unfold execute, dispatch. rewrite Hv, bind_lift.
  destruct config as [dc|sc];
    [destruct (d_operation dc) eqn:Hop | destruct (s_operation sc) eqn:Hop];
    try (unfold returned, expectedCall in Hc; rewrite Hop in Hc;
         discriminate).
  - rewrite (deploymentCreate_called svc dc files Hr Hop), Hc.
    unfold expectedCall in Ht. rewrite Hop in Ht. cbn in Ht.
    unfold tryWithErrorHandling.
    destruct (scope (d_common dc)); [now destruct Ht | ..];
      cbn; rewrite setCreateOutputs_run; cbn; rewrite !app_nil_r;
      unfold outputsOf;
      destruct (properties resource) as [p|]; try reflexivity;
      now destruct (outputs p).
  - rewrite (stackCreate_called svc sc files Hr Hop), Hc.
    unfold tryWithErrorHandling.
    cbn; rewrite setCreateOutputs_run; cbn; rewrite !app_nil_r;
      unfold outputsOf;
      destruct (properties resource) as [p|]; try reflexivity;
      now destruct (outputs p).
Qed.

(** X13. Only a create writes to the output channel: a validate, a what-if
    and a stack delete never set an output and never register a secret,
    however the run ends. *)
Theorem X13_only_create_writes_outputs
    (svc : Service) (parse : string -> option Json) (str : Json -> string)
    (fmt : WhatIfOperationResult -> string -> string)
    (lower : string -> string)
    (config : ActionConfig) (files : ParsedFiles) :
  methodOf config <> CreateOrUpdate ->
  methodOf config <> StackCreateOrUpdate ->
  filter writesOutput (trace (execute svc parse str fmt lower config files)) = [].
Proof.
  intros H1 H2. unfold execute.
  rewrite filter_catch by apply onFailure_writesOutput.
  unfold dispatch.
  destruct (validateFileScope config files) as [[]|e]; [|reflexivity].
  rewrite bind_lift. unfold methodOf in H1, H2.
  destruct config as [dc|sc];
    [destruct (d_operation dc) eqn:Hop | destruct (s_operation sc) eqn:Hop];
    try congruence.
  - rewrite filter_bind by reflexivity.
    rewrite tryWithErrorHandling_filter by reflexivity.
    eapply Run_filter; [reflexivity | apply deploymentValidate_run].
  - rewrite filter_bind by reflexivity.
    eapply Run_filter; [reflexivity | apply deploymentWhatIf_run].
  - rewrite filter_bind by reflexivity.
    rewrite tryWithErrorHandling_filter by reflexivity.
    eapply Run_filter; [reflexivity | now apply stackValidate_run].
  - eapply Run_filter; [reflexivity | now apply stackDelete_run].
Qed.

(** X14. A [RestError] of a create or validate call whose details carry no
    [error] member is not turned into a domain failure: the operation logs
    the correlation id and throws the error again, and it reaches the
    handler at the top. Without a response body, and with a response body
    that is JSON, the handler marks the run failed by [Operation failed] and
    the error leaves [execute]; with a body it logs the correlation id once
    more and the body before that. With a response body that is not JSON the
    handler stops where it parses the body: a [SyntaxError] leaves [execute]
    in place of the error, after the second correlation line, and the run is
    not marked failed. *)
Theorem X14_rest_error_without_error_member
    (svc : Service) (parse : string -> option Json) (str : Json -> string)
    (fmt : WhatIfOperationResult -> string -> string)
    (lower : string -> string)
    (config : ActionConfig) (files : ParsedFiles)
    (c : RemoteCall) (r : RestError) (cloudError : CloudError)
    (msg : string) :
  failureMessage config = Some msg ->
  In (Remote c) (trace (execute svc parse str fmt lower config files)) ->
  answer svc c = Throw (Rest r) ->
  details r = Some cloudError ->
  error cloudError = None ->
  (response r = None ->
   execute svc parse str fmt lower config files
   = mkAction (Throw (Rest r))
       [Remote c;
        LogError "Request failed. CorrelationId: undefined";
        SetFailed "Operation failed"])
  /\ (forall p,
       response r = Some p -> truthy (bodyAsText p) = false ->
       execute svc parse str fmt lower config files
       = mkAction (Throw (Rest r))
           [Remote c;
            LogError ("Request failed. CorrelationId: "
                        ++ toString (headers_get (headers p) correlationHeader));
            SetFailed "Operation failed"])
  /\ (forall p body,
       response r = Some p -> truthy (bodyAsText p) = true ->
       parse (toString (bodyAsText p)) = Some body ->
       execute svc parse str fmt lower config files
       = mkAction (Throw (Rest r))
           [Remote c;
            LogError ("Request failed. CorrelationId: "
                        ++ toString (headers_get (headers p) correlationHeader));
            LogError ("Request failed. CorrelationId: "
                        ++ toString (headers_get (headers p) correlationHeader));
            LogError (str body);
            SetFailed "Operation failed"])
  /\ (forall p,
       response r = Some p -> truthy (bodyAsText p) = true ->
       parse (toString (bodyAsText p)) = None ->
       exists syntaxError,
         execute svc parse str fmt lower config files
         = mkAction (Throw (SyntaxError syntaxError))
             [Remote c;
              LogError ("Request failed. CorrelationId: "
                          ++ toString (headers_get (headers p)
                                                   correlationHeader));
              LogError ("Request failed. CorrelationId: "
                          ++ toString (headers_get (headers p)
                                                   correlationHeader))]).
Proof.
  intros Hmsg Hin Hans Hd He.
  assert (H : execute svc parse str fmt lower config files
              = catch (mkAction (Throw (Rest r))
                         [Remote c;
                          LogError ("Request failed. CorrelationId: "
                                      ++ toString (correlationIdOf r))])
                      (onFailure parse str)).
  { apply remoteCalls_In in Hin. rewrite execute_remoteCalls in Hin.
    destruct (validateFileScope config files) as [[]|] eqn:Hv;
      [|destruct Hin].
    unfold operationCalls in Hin. unfold execute, dispatch.
    rewrite Hv, bind_lift. unfold failureMessage in Hmsg.
    destruct config as [dc|sc];
      [destruct (d_operation dc) eqn:Hop
      |destruct (s_operation sc) eqn:Hop];
      try discriminate.
    - rewrite (Run_thrown c (deploymentCreate_run svc dc files) Hin Hans).
      unfold tryWithErrorHandling. cbn. rewrite Hd, He. reflexivity.
    - rewrite (Run_thrown c (deploymentValidate_run svc dc files) Hin Hans).
      unfold tryWithErrorHandling. cbn. rewrite Hd, He. reflexivity.
    - rewrite (Run_thrown c (stackCreate_run svc sc files Hop) Hin Hans).
      unfold tryWithErrorHandling. cbn. rewrite Hd, He. reflexivity.
    - rewrite (Run_thrown c (stackValidate_run svc sc files Hop) Hin Hans).
      unfold tryWithErrorHandling. cbn. rewrite Hd, He. reflexivity. }
  rewrite H. unfold correlationIdOf. repeat apply conj.
  - intros Hr. cbn. now rewrite Hr.
  - intros p Hr Hb. cbn. now rewrite Hr, Hb.
  - intros p body Hr Hb Hp. cbn. rewrite Hr, Hb. cbn. now rewrite Hp.
  - intros p Hr Hb Hp. cbn. rewrite Hr, Hb. cbn. rewrite Hp.
    eexists. reflexivity.
Qed.

Section Marks.

Variable svc : Service.
Variable parse : string -> option Json.
Variable str : Json -> string.
Variable fmt : WhatIfOperationResult -> string -> string.
Variable lower : string -> string.

Lemma onFailure_marks (e : Exn) :
  (outcome (onFailure parse str e) = Throw e
   /\ filter marksFailed (trace (onFailure parse str e))
      = [SetFailed "Operation failed"])
  \/ (exists m, outcome (onFailure parse str e) = Throw (SyntaxError m)
                /\ filter marksFailed (trace (onFailure parse str e)) = []).
Proof.
  unfold onFailure, logError, setFailed, emit.
  destruct e as [| | | r |]; cbn; try (left; now split).
  destruct (response r) as [p|]; cbn; [|left; now split].
  destruct (truthy (bodyAsText p)); cbn; [|left; now split].
  destruct (parse _); cbn; [left; now split | right; now eexists].
Qed.

Lemma tryWithErrorHandling_marks {T : Type} (action : Action T)
    (onError : ErrorResponse -> Action unit) (msg : string) :
  filter marksFailed (trace action) = [] ->
  (forall err, outcome (onError err) = Return tt
               /\ filter marksFailed (trace (onError err)) = [SetFailed msg]) ->
  let tried := tryWithErrorHandling action onError in
  (exists a, outcome tried = Return a
             /\ (filter marksFailed (trace tried) = []
                 \/ filter marksFailed (trace tried) = [SetFailed msg]))
  \/ (exists e, outcome tried = Throw e
                /\ filter marksFailed (trace tried) = []).
Proof.
  intros Ha Hh tried. subst tried.
  unfold tryWithErrorHandling, logError, emit.
  destruct action as [o t]. cbn [trace] in Ha.
  destruct o as [a|e]; cbn.
  - left. exists (Some a). rewrite app_nil_r. auto.
  - destruct e as [| | | r |]; cbn;
      try (right; eexists; rewrite app_nil_r; now split).
    destruct (details r) as [d|]; cbn;
      [|right; eexists; rewrite filter_app, Ha; now split].
    destruct (error d) as [err|]; cbn;
      [|right; eexists; rewrite filter_app, Ha; now split].
    destruct (Hh err) as [Ho Ht].
    destruct (onError err) as [ho ht]. cbn in Ho, Ht. subst ho. cbn.
    left. exists None.
    rewrite !filter_app, Ha, app_nil_r. cbn. rewrite Ht. auto.
Qed.

Lemma dispatch_marks config files :
  let run := dispatch svc str fmt lower config files in
  (outcome run = Return tt
   /\ (filter marksFailed (trace run) = []
       \/ exists msg, failureMessage config = Some msg
                      /\ filter marksFailed (trace run) = [SetFailed msg]))
  \/ (exists e, outcome run = Throw e
                /\ filter marksFailed (trace run) = []).
Proof.
  intros run. subst run. unfold dispatch.
  destruct (validateFileScope config files) as [[]|e];
    [rewrite bind_lift | right; now exists e].
  assert (Hthen : forall (T : Type) (tried : Action (option T)) msg,
    failureMessage config = Some msg ->
    (exists a, outcome tried = Return a
               /\ (filter marksFailed (trace tried) = []
                   \/ filter marksFailed (trace tried) = [SetFailed msg]))
    \/ (exists e, outcome tried = Throw e
                  /\ filter marksFailed (trace tried) = []) ->
    (outcome (tried ;; ret tt) = Return tt
     /\ (filter marksFailed (trace (tried ;; ret tt)) = []
         \/ exists msg, failureMessage config = Some msg
                        /\ filter marksFailed (trace (tried ;; ret tt))
                           = [SetFailed msg]))
    \/ (exists e, outcome (tried ;; ret tt) = Throw e
                  /\ filter marksFailed (trace (tried ;; ret tt)) = [])).
  { intros T [o t] msg Hmsg [[a [Ho Ht]] | [e [Ho Ht]]];
      cbn in Ho, Ht; subst o; cbn; rewrite ?app_nil_r.
    - left. split; [reflexivity|].
      destruct Ht as [Ht | Ht]; [now left | right; now exists msg].
    - right. now exists e. }
  assert (Hplain : forall (T : Type) (m : Action T) r,
    Run svc m r -> filter marksFailed (trace m) = [])
    by (intros T m r; now apply Run_filter).
  destruct config as [dc|sc];
    [destruct (d_operation dc) eqn:Hop | destruct (s_operation sc) eqn:Hop].
  - apply Hthen with (msg := "Create failed");
      [cbn; now rewrite Hop|].
    apply tryWithErrorHandling_marks; [|now intros err].
    rewrite filter_bind by (intros a; apply setCreateOutputs_marksFailed).
    apply (Hplain _ _ _ (deploymentCreate_run svc dc files)).
  - apply Hthen with (msg := "Validation failed");
      [cbn; now rewrite Hop|].
    apply tryWithErrorHandling_marks; [|now intros err].
    apply (Hplain _ _ _ (deploymentValidate_run svc dc files)).
  - pose proof (Hplain _ _ _ (deploymentWhatIf_run svc dc files)) as Ht.
    destruct (deploymentWhatIf svc dc files) as [[w|e] t]; cbn in Ht |- *.
    + left. rewrite filter_app, Ht. auto.
    + right. now exists e.
  - apply Hthen with (msg := "Create failed");
      [cbn; now rewrite Hop|].
    apply tryWithErrorHandling_marks; [|now intros err].
    rewrite filter_bind by (intros a; apply setCreateOutputs_marksFailed).
    apply (Hplain _ _ _ (stackCreate_run svc sc files Hop)).
  - apply Hthen with (msg := "Validation failed");
      [cbn; now rewrite Hop|].
    apply tryWithErrorHandling_marks; [|now intros err].
    apply (Hplain _ _ _ (stackValidate_run svc sc files Hop)).
  - pose proof (Hplain _ _ _ (stackDelete_run svc sc Hop)) as Ht.
    destruct (stackDelete svc sc) as [[[]|e] t]; cbn in Ht |- *.
    + left. auto.
    + right. now exists e.
Qed.

End Marks.

(** X15. [execute] marks the run failed at most once. When it returns, the
    run is either not marked at all or marked with the message of the
    operation, [Create failed] or [Validation failed]. When it throws, the
    run is marked with [Operation failed], unless what it throws is the
    [SyntaxError] of a response body that is not JSON, in which case the
    run is not marked. *)
Theorem X15_run_is_marked_failed_at_most_once
    (svc : Service) (parse : string -> option Json) (str : Json -> string)
    (fmt : WhatIfOperationResult -> string -> string)
    (lower : string -> string)
    (config : ActionConfig) (files : ParsedFiles) :
  let run := execute svc parse str fmt lower config files in
  let marks := filter marksFailed (trace run) in
  List.length marks <= 1
  /\ (outcome run = Return tt ->
      marks = []
      \/ exists msg, failureMessage config = Some msg
                     /\ marks = [SetFailed msg])
  /\ (forall e, outcome run = Throw e ->
       marks = [SetFailed "Operation failed"]
       \/ ((exists m, e = SyntaxError m) /\ marks = [])).
Proof.
  intros run marks. subst marks run. unfold execute.
  pose proof (dispatch_marks svc str fmt lower config files) as H. cbn zeta in H.
  destruct (dispatch svc str fmt lower config files) as [o t].
  cbn [outcome trace] in H.
  destruct H as [[-> Ht] | [e [-> Ht]]];
    cbn [catch Exception_Action outcome trace].
  - split; [|split].
    + destruct Ht as [-> | [msg [_ ->]]]; cbn; lia.
    + intros _. exact Ht.
    + discriminate.
  - rewrite filter_app, Ht. cbn [app].
    destruct (onFailure_marks parse str e) as [[Ho Hm] | [m [Ho Hm]]];
      rewrite Hm, Ho;
      (split; [cbn; lia | split; [discriminate|]]).
    + intros e' He'. now left.
    + intros e' He'. injection He' as <-. right. split; [now exists m | reflexivity].
Qed.

(* ===================================================================== *)
(** ** The debug logging policy *)
(* ===================================================================== *)

(** X19. The debug logging policy never changes what is sent or received:
    it passes the request on unchanged and at most once, and when it returns
    it returns the response it got. With debug output disabled it does
    nothing else: it answers as the rest of the pipeline does and writes no
    line. *)
Theorem X19_policy_passes_request_and_response_on
    (isDebug : bool) (parse : string -> option Json) (str : Json -> string)
    (next : Policy.PipelineRequest -> Outcome Policy.Response)
    (request : Policy.PipelineRequest) :
  let run := Policy.sendRequest isDebug parse str next request in
  (forall response,
     Policy.result run = Return response -> next request = Return response)
  /\ (forall sent, In (Policy.Next sent) (Policy.log run) -> sent = request)
  /\ List.length (filter isNext (Policy.log run)) <= 1
  /\ (isDebug = false ->
      run = Policy.mkStep (next request) [Policy.Next request]).
Proof.
  intros run. subst run.
  unfold Policy.sendRequest, Policy.parseJson, Policy.debug.
  destruct isDebug; cbn.
  - destruct (truthy (Policy.body request)); cbn;
      [destruct (parse (toString (Policy.body request))); cbn|];
      try destruct (next request) as [response|e]; cbn;
      try destruct (truthy (bodyAsText (Policy.content response))); cbn;
      try destruct (parse (toString (bodyAsText (Policy.content response))));
      cbn;
      (repeat split;
       [ intros ? H; try discriminate; now injection H as <-
       | intros sent H;
         repeat (destruct H as [H | H]; try discriminate;
                 try (now injection H as <-)); destruct H
       | lia
       | discriminate ]).
  - destruct (next request) as [response|e]; cbn;
      (repeat split;
       [ intros ? H; try discriminate; now injection H as <-
       | intros sent [H | []]; now injection H as <-
       | lia ]).
Qed.

(** X20. With debug output enabled the policy writes the request line and
    the body of the request, passes the request on, and after the answer
    writes the status, the body of the response, the correlation id and the
    activity id, each header shown as [undefined] when absent, and returns
    the response. A body is written when it is JSON, and skipped when absent
    or empty. A request whose body is not JSON is never passed on: a
    [SyntaxError] leaves the policy after the request line. A response whose
    body is not JSON is lost: a [SyntaxError] leaves the policy after the
    status line. A failure of the rest of the pipeline is passed up as it
    is. *)
Theorem X20_policy_with_debug_output
    (parse : string -> option Json) (str : Json -> string)
    (next : Policy.PipelineRequest -> Outcome Policy.Response)
    (request : Policy.PipelineRequest) :
  let run := Policy.sendRequest true parse str next request in
  let requestLine :=
    Policy.Debug ("Request: " ++ Policy.method request ++ " "
                    ++ Policy.url request) in
  let statusLine := fun response =>
    Policy.Debug ("Response: "
                    ++ Policy.showNumber (Policy.status response)) in
  let headerLines := fun response =>
    [Policy.Debug
       ("CorrelationId: "
          ++ toString (headers_get (headers (Policy.content response))
                                   "x-ms-correlation-request-id"));
     Policy.Debug
       ("ActivityId: "
          ++ toString (headers_get (headers (Policy.content response))
                                   "x-ms-request-id"))] in
  (bodyLine parse str (Policy.body request) = None ->
   exists syntaxError,
     run = Policy.mkStep (Throw (SyntaxError syntaxError)) [requestLine])
  /\ (forall sent e,
       bodyLine parse str (Policy.body request) = Some sent ->
       next request = Throw e ->
       run = Policy.mkStep (Throw e)
               (requestLine :: sent ++ [Policy.Next request])%list)
  /\ (forall sent response,
       bodyLine parse str (Policy.body request) = Some sent ->
       next request = Return response ->
       bodyLine parse str (bodyAsText (Policy.content response)) = None ->
       exists syntaxError,
         run = Policy.mkStep (Throw (SyntaxError syntaxError))
                 (requestLine :: sent
                    ++ [Policy.Next request; statusLine response])%list)
  /\ (forall sent response received,
       bodyLine parse str (Policy.body request) = Some sent ->
       next request = Return response ->
       bodyLine parse str (bodyAsText (Policy.content response))
       = Some received ->
       run = Policy.mkStep (Return response)
               (requestLine :: sent
                  ++ [Policy.Next request; statusLine response]
                  ++ received ++ headerLines response)%list).
Proof.
  intros run requestLine statusLine headerLines.
  subst run requestLine statusLine headerLines.
  unfold Policy.sendRequest, Policy.parseJson, Policy.debug, bodyLine.
  repeat apply conj.
  - destruct (truthy (Policy.body request)); [|discriminate].
    destruct (parse (toString (Policy.body request))); [discriminate|].
    intros _. eexists. reflexivity.
  - intros sent e Hs Hn.
    destruct (truthy (Policy.body request));
      [destruct (parse (toString (Policy.body request))); [|discriminate]|];
      injection Hs as <-; cbn; now rewrite Hn.
  - intros sent response Hs Hn Hr.
    destruct (truthy (bodyAsText (Policy.content response))) eqn:Hb;
      [|discriminate].
    destruct (parse (toString (bodyAsText (Policy.content response))))
      eqn:Hp; [discriminate|].
    destruct (truthy (Policy.body request));
      [destruct (parse (toString (Policy.body request))); [|discriminate]|];
      injection Hs as <-; cbn; rewrite Hn; cbn; rewrite Hb; cbn; rewrite Hp;
      eexists; reflexivity.
  - intros sent response received Hs Hn Hr.
    destruct (truthy (bodyAsText (Policy.content response))) eqn:Hb;
      [destruct (parse (toString (bodyAsText (Policy.content response))))
         eqn:Hp; [|discriminate]|];
      injection Hr as <-;
      (destruct (truthy (Policy.body request));
       [destruct (parse (toString (Policy.body request))); [|discriminate]|]);
      injection Hs as <-; cbn; rewrite Hn; cbn; rewrite Hb; cbn;
      try rewrite Hp; reflexivity.
Qed.

(* ===================================================================== *)
(** ** The properties on sample runs *)
(* ===================================================================== *)

Import Samples.

(** C4. Two errors that carry no parseable structured body do not come out
    of [execute] as the property says. A what-if whose remote call throws a
    [RestError] with a body that is not JSON: the handler at the top logs
    the correlation id, then [JSON.parse] throws, so the run is never marked
    failed and a [SyntaxError] is thrown in place of the error. A validation
    whose remote call throws a [RestError] without details (no response was
    received): reading [error] off the missing details throws a [TypeError],
    which is what reaches the top and is thrown on, and no correlation id or
    body is logged there. *)
Theorem C4_errors_lost_on_the_way_up :
  (outcome (run (failing (Rest gatewayError)) (deploy dWhatIf rgScope None)
                (filesOf (generated rgSchema)))
   = Throw (SyntaxError "Unexpected token in JSON")
   /\ filter (fun e => match e with Remote _ => false | _ => true end)
        (trace (run (failing (Rest gatewayError)) (deploy dWhatIf rgScope None)
                    (filesOf (generated rgSchema))))
      = [LogError "Request failed. CorrelationId: bad9a7e"])
  /\ (outcome (run (failing (Rest networkError)) (deploy dValidate rgScope None)
                   (filesOf (generated rgSchema)))
      = Throw (TypeError
          "Cannot destructure property 'error' of 'ex.details' as it is undefined.")
      /\ filter (fun e => match e with Remote _ => false | _ => true end)
           (trace (run (failing (Rest networkError))
                       (deploy dValidate rgScope None)
                       (filesOf (generated rgSchema))))
         = [LogError "Request failed. CorrelationId: undefined";
            SetFailed "Operation failed"]).
Proof. repeat split; reflexivity. Qed.

(** The end-to-end test [runs validation and handles failures]: the failure
    is [Validation failed] and the second error line is the structured
    error. *)
Example validation_failure_is_handled :
  exists call line,
    run (failing (Rest serviceError)) (deploy dValidate rgScope None)
        (filesOf (generated rgSchema))
    = mkAction (Return tt)
        [Remote call; LogError line;
         LogError (stringify (ErrorResponse_toJson invalidTemplate));
         SetFailed "Validation failed"].
Proof. do 2 eexists. reflexivity. Qed.

(** The policy with debug output enabled, on a request with a JSON body
    that is answered by a failed validation. *)
Example policy_logs_both_bodies :
  let request :=
    Policy.mkPipelineRequest "POST" "https://management.azure.com/validate"
                             (Some "{}") in
  let response :=
    Policy.mkResponse 400
      (mkPipelineResponse [("x-ms-correlation-request-id", "c0ffee")]
                          (Some invalidTemplateBody)) in
  Policy.sendRequest true parse stringify (fun _ => Return response) request
  = Policy.mkStep (Return response)
      [Policy.Debug "Request: POST https://management.azure.com/validate";
       Policy.Debug "Body: {}";
       Policy.Next request;
       Policy.Debug "Response: 400";
       Policy.Debug "Body: {error}";
       Policy.Debug "CorrelationId: c0ffee";
       Policy.Debug "ActivityId: undefined"].
Proof. reflexivity. Qed.

(** Outputs [foo] and [secretOut] with [SecretOut] masked. *)
Example masked_output_is_registered :
  trace (setCreateOutputs toLowerCase (commonAt rgScope None)
           (Some sampleOutputs))
  = [SetOutput "foo" "bar"; SetOutput "secretOut" "baz"; SetSecret "baz"].
Proof. reflexivity. Qed.

Example scope_token_case_is_ignored :
  getScope (filesOf (generated
    "https://schema.management.azure.com/schemas/2019-08-01/TENANTdeploymentTemplate.json#"))
  = Return (Some tenant).
Proof. reflexivity. Qed.

Lemma C1_counterexample :
  truthy (templateSpecId specAndTemplate) = true
  /\ Deployment.templateLink
       (Deployment.properties (getDeployment validateRg specAndTemplate))
     = Some (mkTemplateLink "spec-1")
  /\ Deployment.template
       (Deployment.properties (getDeployment validateRg specAndTemplate))
     = Some (generated rgSchema)
  /\ DeploymentStack.templateLink
       (DeploymentStack.properties
          (getStack (stackConfig sCreate rgScope None) specAndTemplate))
     = Some (mkTemplateLink "spec-1")
  /\ DeploymentStack.template
       (DeploymentStack.properties
          (getStack (stackConfig sCreate rgScope None) specAndTemplate))
     = Some (generated rgSchema).
Proof. repeat split. Qed.

Lemma C1_witness :
  truthy (templateSpecId (specOnly "spec-1")) = true
  /\ Deployment.templateLink
       (Deployment.properties (getDeployment validateRg (specOnly "spec-1")))
     = Some (mkTemplateLink "spec-1")
  /\ Deployment.template
       (Deployment.properties (getDeployment validateRg (specOnly "spec-1")))
     = None.
Proof.
  split; [reflexivity|].
  destruct (@C1_template_spec_reference validateRg
              (stackConfig sCreate rgScope None) (specOnly "spec-1") eq_refl)
    as [H1 [_ [H2 _]]].
  split; [exact H1 | exact H2].
Defined.

Lemma C2_counterexample :
  validateFileScope (deploy dCreate subScope None)
                    (filesOf (generated subscriptionSchema))
  = Return tt
  /\ remoteCalls
       (trace (run succeeding (deploy dCreate subScope None)
                 (filesOf (generated subscriptionSchema))))
     = []
  /\ validateFileScope (stack sCreate tenantScope (Some "westus"))
                       (filesOf (handwritten tenantSchema))
     = Return tt
  /\ run succeeding (stack sCreate tenantScope (Some "westus"))
         (filesOf (handwritten tenantSchema))
     = mkAction (Return tt) [].
Proof. repeat split. Qed.

Lemma C2_witness :
  validateFileScope (deploy dCreate rgScope None) (filesOf (generated rgSchema))
  = Return tt
  /\ List.length
       (remoteCalls (trace (run succeeding (deploy dCreate rgScope None)
                              (filesOf (generated rgSchema))))) = 1.
Proof.
  split; [reflexivity|].
  apply (proj2 (@C2_at_most_one_remote_operation succeeding parse stringify
                  formatWhatIf toLowerCase (deploy dCreate rgScope None)
                  (filesOf (generated rgSchema)) eq_refl)).
  split; [reflexivity | discriminate].
Defined.

Lemma C3_witness :
  failureMessage (deployment validateRg) = Some "Validation failed"
  /\ answer (failing (Rest serviceError))
       (BeginValidate (getDeploymentClient rgScope) (AtResourceGroup "rg-1")
          "e2e" (getDeployment validateRg (filesOf (generated rgSchema))))
     = Throw (Rest serviceError)
  /\ run (failing (Rest serviceError)) (deployment validateRg)
         (filesOf (generated rgSchema))
     = mkAction (Return tt)
         [Remote (BeginValidate (getDeploymentClient rgScope)
                    (AtResourceGroup "rg-1") "e2e"
                    (getDeployment validateRg (filesOf (generated rgSchema))));
          LogError "Request failed. CorrelationId: c0ffee";
          LogError (stringify (ErrorResponse_toJson invalidTemplate));
          SetFailed "Validation failed"].
Proof.
  split; [reflexivity|]. split; [reflexivity|].
  apply (@C3_structured_service_error_is_reported
           (failing (Rest serviceError)) parse stringify formatWhatIf toLowerCase
           (deployment validateRg) (filesOf (generated rgSchema))
           (BeginValidate (getDeploymentClient rgScope)
              (AtResourceGroup "rg-1") "e2e"
              (getDeployment validateRg (filesOf (generated rgSchema))))
           serviceError (mkCloudError (Some invalidTemplate)) invalidTemplate
           "Validation failed");
    try reflexivity.
  left. reflexivity.
Defined.

Lemma C5_counterexample :
  location (common (stack sDelete subScope None)) = None
  /\ scope_type (scope (common (stack sDelete subScope None))) = subscription
  /\ validateFileScope (stack sDelete subScope None)
                       (filesOf (handwritten rgSchema)) = Return tt
  /\ run succeeding (stack sDelete subScope None)
         (filesOf (handwritten rgSchema))
     = mkAction (Return tt)
         [Remote (StacksBeginDelete (getStacksClient subScope) AtSubscription
                    "e2e"
                    (getStackDeletionOptions
                       (stackConfig sDelete subScope None)))].
Proof. repeat split. Qed.

Lemma C5_witness :
  validateFileScope (deploy dCreate subScope None)
                    (filesOf (handwritten rgSchema)) = Return tt
  /\ requiresLocation (deploy dCreate subScope None) = true
  /\ locationSet (common (deploy dCreate subScope None)) = false
  /\ run succeeding (deploy dCreate subScope None)
         (filesOf (handwritten rgSchema))
     = mkAction (Throw (Error "Location is required"))
                [SetFailed "Operation failed"].
Proof.
  repeat (split; [reflexivity|]).
  apply (proj1 (@C5_location_is_required_before_the_remote_call succeeding
                  parse stringify formatWhatIf toLowerCase (deploy dCreate subScope None)
                  (filesOf (handwritten rgSchema)) eq_refl));
    reflexivity.
Defined.

Lemma C6_witness :
  getScope (filesOf (generated tenantSchema)) = Return (Some tenant)
  /\ validateFileScope (deployment validateRg)
                       (filesOf (generated tenantSchema))
     = Throw (Error
         "The target scope tenant does not match the deployment scope resourceGroup.").
Proof.
  destruct (@C6_tenant_schema_and_scope_mismatch (deployment validateRg)
              (filesOf (generated tenantSchema))
              "2019-08-01" "tenantDeployment" "#"
              eq_refl eq_refl) as [H1 [_ H3]];
    [discriminate | reflexivity | reflexivity |].
  split; [exact H1 | apply H3; discriminate].
Defined.

Lemma C7_witness :
  exec schemaRegex unknownSchema
  = Some [Some unknownSchema; Some "resourceGroupDeployment"]
  /\ validateFileScope (deployment validateRg) (filesOf (generated unknownSchema))
     = Throw (Error "Failed to determine deployment scope from Bicep file.").
Proof.
  split; [reflexivity|].
  apply (@C7_unknown_scope_token_fails (deployment validateRg)
           (filesOf (generated unknownSchema)) unknownSchema
           [Some unknownSchema; Some "resourceGroupDeployment"]
           "resourceGroupDeployment");
    try reflexivity; discriminate.
Defined.

Lemma C8_witness :
  generatorName (templateOrEmpty (filesOf (handwritten tenantSchema))) = None
  /\ validateFileScope (deployment validateRg)
                       (filesOf (handwritten tenantSchema)) = Return tt.
Proof.
  split; [reflexivity|].
  apply (@C8_templates_without_generator_metadata_pass (deployment validateRg)
           (filesOf (handwritten tenantSchema)) eq_refl).
Defined.

Lemma C9_witness :
  maskedOutputs (commonAt rgScope None) = Some ["SecretOut"]
  /\ isAsciiText "secretOut" = true
  /\ equalIgnoringCase "SecretOut" "secretOut" = true
  /\ matchesMasked toLowerCase (commonAt rgScope None) "secretOut"
  /\ trace (setCreateOutputs toLowerCase (commonAt rgScope None)
              (Some sampleOutputs))
     = [SetOutput "foo" "bar"; SetOutput "secretOut" "baz"; SetSecret "baz"].
Proof.
  destruct (@C9_output_projection toLowerCase (commonAt rgScope None)
              sampleOutputs (fun s _ => eq_refl))
    as [_ [_ [Htrace [_ [_ [_ [_ [Hcase _]]]]]]]].
  split; [reflexivity|]. split; [reflexivity|]. split; [reflexivity|].
  split; [|exact Htrace].
  apply (Hcase ["SecretOut"] "secretOut" eq_refl eq_refl eq_refl).
  exists "SecretOut". split; [now left | reflexivity].
Defined.

Lemma C10_witness :
  outputsOf (Some created) = Some sampleOutputs
  /\ deployments_createOrUpdate succeeding
       (getDeploymentClient tenantScope) AtTenant "e2e"
       (Deployment.withLocation
          (getDeployment tenantCreate (filesOf (generated tenantSchema)))
          "westus")
     = Return created
  /\ run succeeding (deployment tenantCreate) (filesOf (generated tenantSchema))
     = mkAction (Return tt)
         [Remote (tenantCreateCall tenantCreate
                    (filesOf (generated tenantSchema)))]
  /\ filter writesOutput
       (trace (run succeeding (deployment tenantCreate)
                 (filesOf (generated tenantSchema)))) = [].
Proof.
  split; [reflexivity|]. split; [reflexivity|].
  destruct (@C10_tenant_create_discards_the_result succeeding parse stringify
              formatWhatIf toLowerCase tenantCreate (filesOf (generated tenantSchema))
              (Some "tenant-1") eq_refl eq_refl) as [_ [_ [H3 H4]]].
  split; [apply H3; reflexivity | exact H4].
Defined.

Lemma X1_witness :
  In (Remote (expectedCall (deployment validateRg) rgFiles))
     (trace (run succeeding (deployment validateRg) rgFiles))
  /\ callMethod (expectedCall (deployment validateRg) rgFiles) = Validate
  /\ callTarget (expectedCall (deployment validateRg) rgFiles)
     = AtResourceGroup "rg-1"
  /\ callName (expectedCall (deployment validateRg) rgFiles) = "e2e".
Proof.
  split; [left; reflexivity|].
  apply (@X1_call_matches_configuration succeeding parse stringify
           formatWhatIf toLowerCase (deployment validateRg) rgFiles).
  left. reflexivity.
Defined.

Lemma X2_witness :
  In (Remote (expectedCall (deployment tenantCreate)
                (filesOf (generated tenantSchema))))
     (trace (run succeeding (deployment tenantCreate)
               (filesOf (generated tenantSchema))))
  /\ clientSubscriptionId
       (callClient (expectedCall (deployment tenantCreate)
                      (filesOf (generated tenantSchema))))
     = "00000000-0000-0000-0000-000000000000".
Proof.
  split; [left; reflexivity|].
  apply (@X2_client_of_the_scope succeeding parse stringify formatWhatIf toLowerCase
           (deployment tenantCreate) (filesOf (generated tenantSchema))).
  left. reflexivity.
Defined.

Lemma X3_witness :
  In (Remote (expectedCall (deploymentStack stackAtSubscription)
                (filesOf (handwritten rgSchema))))
     (trace (run succeeding (deploymentStack stackAtSubscription)
               (filesOf (handwritten rgSchema))))
  /\ callStack (expectedCall (deploymentStack stackAtSubscription)
                  (filesOf (handwritten rgSchema)))
     = Some (stackBody stackAtSubscription (filesOf (handwritten rgSchema)))
  /\ DeploymentStack.location
       (stackBody stackAtSubscription (filesOf (handwritten rgSchema)))
     = Some "westus".
Proof.
  split; [left; reflexivity|]. split; [reflexivity|].
  destruct (proj2 (@X3_request_body succeeding parse stringify formatWhatIf toLowerCase
                     (deploymentStack stackAtSubscription)
                     (filesOf (handwritten rgSchema))
                     (expectedCall (deploymentStack stackAtSubscription)
                        (filesOf (handwritten rgSchema)))
                     (or_introl eq_refl))
              (stackBody stackAtSubscription (filesOf (handwritten rgSchema)))
              eq_refl) as [sc [Hc [_ [_ [Hl _]]]]].
  injection Hc as <-. exact Hl.
Defined.

Lemma X4_witness :
  s_operation deleteAtSubscription = sDelete
  /\ validateFileScope (deploymentStack deleteAtSubscription) rgFiles
     = Throw (Error
         "The target scope resourceGroup does not match the deployment scope subscription.")
  /\ validateFileScope (deploymentStack deleteAtSubscription)
       (filesOf (handwritten rgSchema)) = Return tt
  /\ validateFileScope (deploymentStack deleteAtSubscription)
       (filesOf (generated subscriptionSchema)) = Return tt
  /\ run succeeding (deploymentStack deleteAtSubscription)
         (filesOf (handwritten rgSchema))
     = run succeeding (deploymentStack deleteAtSubscription)
         (filesOf (generated subscriptionSchema)).
Proof.
  repeat (split; [reflexivity|]).
  apply (@X4_stack_delete succeeding parse stringify formatWhatIf toLowerCase
           deleteAtSubscription (filesOf (handwritten rgSchema))
           (filesOf (generated subscriptionSchema)));
    reflexivity.
Defined.

Lemma X6_witness :
  getScope (filesOf (generated
    "https://schema.management.azure.com/schemas/2019-08-01/managementGroupDeploymentTemplate.json#"))
  = Return (Some managementGroup)
  /\ getScope rgFiles = Return (Some resourceGroup)
  /\ validateFileScope (deployment validateRg) rgFiles = Return tt.
Proof.
  split.
  - apply (@X6_scope_of_each_token (deployment validateRg)
             (filesOf (generated
                "https://schema.management.azure.com/schemas/2019-08-01/managementGroupDeploymentTemplate.json#"))
             "2019-08-01" "managementGroupDeployment" "#" managementGroup);
      try reflexivity; discriminate.
  - destruct (@X6_scope_of_each_token (deployment validateRg) rgFiles
                "2019-04-01" "deployment" "#" resourceGroup eq_refl eq_refl)
      as [H1 H2]; try reflexivity; [discriminate|].
    split; [exact H1 | now apply H2].
Defined.

Lemma X7_witness :
  schema (templateOrEmpty (filesOf
            (mkTemplate None
               (Some (mkMetadata (Some (mkGenerator (Some "bicep") None))))
               []))) = None
  /\ validateFileScope (deployment validateRg)
       (filesOf (mkTemplate None
                   (Some (mkMetadata (Some (mkGenerator (Some "bicep") None))))
                   []))
     = Throw (Error "Failed to determine deployment scope from Bicep file.")
  /\ exec schemaRegex
       "http://schema.management.azure.com/schemas/2019-04-01/deploymentTemplate.json#"
     = None
  /\ validateFileScope (deployment validateRg)
       (filesOf (generated
          "http://schema.management.azure.com/schemas/2019-04-01/deploymentTemplate.json#"))
     = Throw (Error "Failed to determine deployment scope from Bicep file.").
Proof.
  split; [reflexivity|]. split; [|split; [reflexivity|]].
  - apply X7_generated_template_without_schema_match;
      [reflexivity | now left].
  - apply X7_generated_template_without_schema_match; [reflexivity|].
    right. eexists. split; reflexivity.
Defined.

Lemma X8_witness :
  getScope (filesOf (generated tenantSchema)) = Return (Some tenant)
  /\ truthy (generatorName
               (templateOrEmpty (filesOf (generated tenantSchema)))) = true.
Proof.
  split; [reflexivity|].
  apply (proj1 (@X8_inferred_scope_comes_from_the_schema
                  (filesOf (generated tenantSchema)) tenant eq_refl)).
Defined.

Lemma X10_witness :
  In (Remote (expectedCall (deploymentStack deleteAtSubscription)
                (filesOf (handwritten rgSchema))))
     (trace (run succeeding (deploymentStack deleteAtSubscription)
               (filesOf (handwritten rgSchema))))
  /\ run succeeding (deploymentStack deleteAtSubscription)
         (filesOf (handwritten rgSchema))
     = mkAction (Return tt)
         [Remote (expectedCall (deploymentStack deleteAtSubscription)
                    (filesOf (handwritten rgSchema)))].
Proof.
  split; [left; reflexivity|].
  apply (@X10_validate_and_delete_succeed_silently succeeding parse stringify
           formatWhatIf toLowerCase (deploymentStack deleteAtSubscription)
           (filesOf (handwritten rgSchema))).
  - left. reflexivity.
  - right. right. reflexivity.
  - reflexivity.
Defined.

Lemma X11_witness :
  predicted succeeding (expectedCall whatIfRg rgFiles)
  = Some (Return (JObject []))
  /\ run succeeding whatIfRg rgFiles
     = mkAction (Return tt)
         [Remote (expectedCall whatIfRg rgFiles); LogInfoRaw "what-if: {}"].
Proof.
  split; [reflexivity|].
  apply (@X11_what_if_logs_the_formatted_result succeeding parse stringify
           formatWhatIf toLowerCase whatIfRg rgFiles (expectedCall whatIfRg rgFiles)
           (JObject [])).
  - left. reflexivity.
  - reflexivity.
Defined.

Lemma X12_witness :
  returned succeeding (expectedCall createRg rgFiles) = Some (Return created)
  /\ run succeeding createRg rgFiles
     = mkAction (Return tt)
         [Remote (expectedCall createRg rgFiles);
          SetOutput "foo" "bar"; SetOutput "secretOut" "baz";
          SetSecret "baz"].
Proof.
  split; [reflexivity|].
  apply (@X12_create_writes_the_returned_outputs succeeding parse stringify
           formatWhatIf toLowerCase createRg rgFiles (expectedCall createRg rgFiles)
           created).
  - left. reflexivity.
  - reflexivity.
  - discriminate.
Defined.

Lemma X13_witness :
  methodOf whatIfRg = WhatIf
  /\ filter writesOutput (trace (run succeeding whatIfRg rgFiles)) = [].
Proof.
  split; [reflexivity|].
  apply (@X13_only_create_writes_outputs succeeding parse stringify
           formatWhatIf toLowerCase whatIfRg rgFiles); discriminate.
Defined.

Lemma X14_witness :
  answer (failing (Rest plainError))
         (expectedCall (deployment validateRg) rgFiles)
  = Throw (Rest plainError)
  /\ run (failing (Rest plainError)) (deployment validateRg) rgFiles
     = mkAction (Throw (Rest plainError))
         [Remote (expectedCall (deployment validateRg) rgFiles);
          LogError "Request failed. CorrelationId: undefined";
          SetFailed "Operation failed"]
  /\ parse "<html>Bad Gateway</html>" = None
  /\ exists syntaxError,
       run (failing (Rest gatewayReply)) (deployment validateRg) rgFiles
       = mkAction (Throw (SyntaxError syntaxError))
           [Remote (expectedCall (deployment validateRg) rgFiles);
            LogError "Request failed. CorrelationId: bad9a7e";
            LogError "Request failed. CorrelationId: bad9a7e"].
Proof.
  split; [reflexivity|]. split; [|split; [reflexivity|]].
  - apply (proj1 (@X14_rest_error_without_error_member
                    (failing (Rest plainError)) parse stringify formatWhatIf
                    toLowerCase (deployment validateRg) rgFiles
                    (expectedCall (deployment validateRg) rgFiles)
                    plainError (mkCloudError None) "Validation failed"
                    eq_refl (or_introl eq_refl) eq_refl eq_refl eq_refl)).
    reflexivity.
  - apply (proj2 (proj2 (proj2
             (@X14_rest_error_without_error_member
                (failing (Rest gatewayReply)) parse stringify formatWhatIf
                toLowerCase (deployment validateRg) rgFiles
                (expectedCall (deployment validateRg) rgFiles)
                gatewayReply (mkCloudError None) "Validation failed"
                eq_refl (or_introl eq_refl) eq_refl eq_refl eq_refl)))
             (mkPipelineResponse [("X-Ms-Correlation-Request-Id", "bad9a7e")]
                                 (Some "<html>Bad Gateway</html>"))
             eq_refl eq_refl eq_refl).
Defined.

Lemma X16_witness :
  validateFileScope (deployment validateRg) (filesOf (generated tenantSchema))
  = Throw (Error
      "The target scope tenant does not match the deployment scope resourceGroup.")
  /\ run succeeding (deployment validateRg) (filesOf (generated tenantSchema))
     = mkAction
         (Throw (Error
            "The target scope tenant does not match the deployment scope resourceGroup."))
         [SetFailed "Operation failed"].
Proof.
  split; [reflexivity|].
  apply (@execute_reraises_validation succeeding parse stringify formatWhatIf toLowerCase
           (deployment validateRg) (filesOf (generated tenantSchema))).
  reflexivity.
Defined.

Lemma X17_witness :
  answer (failing (Thrown "socket hang up")) (expectedCall createRg rgFiles)
  = Throw (Thrown "socket hang up")
  /\ run (failing (Thrown "socket hang up")) createRg rgFiles
     = mkAction (Throw (Thrown "socket hang up"))
         [Remote (expectedCall createRg rgFiles);
          SetFailed "Operation failed"].
Proof.
  split; [reflexivity|].
  apply (@execute_reraises_unexpected (failing (Thrown "socket hang up"))
           parse stringify formatWhatIf toLowerCase createRg rgFiles
           (expectedCall createRg rgFiles) (Thrown "socket hang up")).
  - left. reflexivity.
  - reflexivity.
  - discriminate.
Defined.

Lemma X18_witness :
  answer (failing (Rest serviceError)) (expectedCall whatIfRg rgFiles)
  = Throw (Rest serviceError)
  /\ run (failing (Rest serviceError)) whatIfRg rgFiles
     = mkAction (Throw (Rest serviceError))
         [Remote (expectedCall whatIfRg rgFiles);
          LogError "Request failed. CorrelationId: c0ffee";
          LogError "{error}";
          SetFailed "Operation failed"].
Proof.
  split; [reflexivity|].
  apply (@execute_reraises_transport (failing (Rest serviceError))
           parse stringify formatWhatIf toLowerCase whatIfRg rgFiles
           (expectedCall whatIfRg rgFiles) serviceError
           (mkPipelineResponse [("x-ms-correlation-request-id", "c0ffee")]
              (Some invalidTemplateBody))
           (JObject [("error",
              JObject [("code", JString "InvalidTemplateDeployment")])]));
    try reflexivity.
  left. reflexivity.
Defined.
